(** * Investimento.py: the analytics pipeline, embedded and verified

    The three analytic functions of [Investimento.py] are embedded here:
    [calcular_metricas] (lines 22-34), [analisar_tendencia] (lines 37-43)
    and [calcular_projecao_crescimento] (lines 46-57), together with the
    part of [recomendar_compra_e_projecao] and [main] that chains them.

    Numbers are the code's own: a pandas column holds numpy [float64]
    values, so a cell is a binary64 [float] of the kernel, "no value" is
    the float NaN, and every arithmetic step rounds as IEEE 754 does.
    A [DataFrame] is a mutable object: the functions receive a reference
    to it, so the embedding threads a store of objects. *)

From Stdlib Require Uint63.
From Stdlib Require Import ZArith Floats Lia List Bool.
From stdpp Require Import gmap strings list.

Local Open Scope float_scope.

(** ** Python values *)

(** A number returned to the caller: Python's [int] or a numpy [float64]. *)
Inductive pynum : Type :=
  | PyInt (z : Z)
  | PyFloat (f : float).

(** The exceptions the modelled statements can raise.  [Dangling] is not
    a Python exception: it is the outcome for a reference that is not in
    the store, which a Python program cannot build. *)
Inductive exn : Type :=
  | KeyError (k : string)
  | IndexError
  | Dangling.

(** A pandas [Series] of float64 cells, in row order. *)
Abbreviation Series := (list float).

(** A [DataFrame]: its columns by label.  All columns written by the
    code have the row count of the column they are computed from; the
    date index is never read by the functions below. *)
Abbreviation DataFrame := (gmap string (list float)).

(** Object identities and the store of live [DataFrame] objects. *)
Abbreviation loc := positive.
Abbreviation heap := (gmap positive (gmap string (list float))).

(** ** The pandas and numpy operations the code calls *)

Module Pandas.

Definition isna (x : float) : bool := is_nan x.
Definition notna (x : float) : bool := negb (is_nan x).

(** [Series.ffill()]: a missing cell takes the last value seen. *)
Fixpoint ffill_from (prev : float) (s : Series) : Series :=
  match s with
  | [] => []
  | x :: t => let y := if isna x then prev else x in y :: ffill_from y t
  end.

Definition ffill (s : Series) : Series := ffill_from nan s.

(** [Series.shift(1)]: every cell moves one row down, the first row
    has no value. *)
Definition shift (s : Series) : Series :=
  match s with
  | [] => []
  | _ :: _ => nan :: removelast s
  end.

Fixpoint zip_with2 (f : float -> float -> float) (a b : Series) : Series :=
  match a, b with
  | x :: a', y :: b' => f x y :: zip_with2 f a' b'
  | _, _ => []
  end.

(** [Series.pct_change()] with its defaults: periods 1, and missing
    cells padded forward first (the default up to pandas 2; on a series
    without missing cells the padding changes nothing, see
    [ffill_notna]): [data / data.shift(1) - 1]. *)
Definition pct_change (s : Series) : Series :=
  let data := ffill s in
  zip_with2 (fun x y => x / y - 1) data (shift data).

(** [numpy.cumprod]: the running product, left to right. *)
Fixpoint np_cumprod_from (acc : float) (s : Series) : Series :=
  match s with
  | [] => []
  | x :: t => let a := acc * x in a :: np_cumprod_from a t
  end.

Definition np_cumprod (s : Series) : Series :=
  match s with
  | [] => []
  | x :: t => x :: np_cumprod_from x t
  end.

Fixpoint mask_with (mask : list bool) (s : Series) : Series :=
  match mask, s with
  | m :: mask', x :: s' => (if m then nan else x) :: mask_with mask' s'
  | _, _ => []
  end.

(** [Series.cumprod()] (skipna): a missing cell is replaced by 1 for
    the running product and the result is missing again at its row. *)
Definition cumprod (s : Series) : Series :=
  let mask := map isna s in
  let vals := map (fun x => if isna x then 1 else x) s in
  mask_with mask (np_cumprod vals).

(** The rows a rolling window of [W] rows ending at row [t] covers. *)
Definition window (W : nat) (s : Series) (t : nat) : Series :=
  drop (S t - W) (take (S t) s).

Definition rolling (W : nat) (agg : Series -> float) (s : Series) : Series :=
  map (fun t => agg (window W s t)) (seq 0 (length s)).

Definition of_nat (n : nat) : float := of_uint63 (Uint63.of_Z (Z.of_nat n)).

Definition fsum (s : Series) : float := fold_left PrimFloat.add s 0.

(** The mean of one window: no value unless it holds at least [minp]
    observations (cells that are not missing; an infinity counts as an
    observation).  The value is the sum of the observations, added in
    row order, over their number.  The sliding, compensated sum of
    pandas can differ from it in the last bits, and where the sum
    overflows. *)
Definition roll_mean (minp : nat) (w : Series) : float :=
  let obs := List.filter notna w in
  let n := length obs in
  if (minp <=? n)%nat && (0 <? n)%nat then fsum obs / of_nat n else nan.

(** The sample standard deviation (ddof 1) of one window, under the
    same rule on the number of observations, computed in two passes; the
    one-pass update of pandas can differ from it in the last bits. *)
Definition roll_std (minp : nat) (w : Series) : float :=
  let obs := List.filter notna w in
  let n := length obs in
  if (minp <=? n)%nat && (1 <? n)%nat then
    let mean := fsum obs / of_nat n in
    PrimFloat.sqrt (fsum (map (fun x => (x - mean) * (x - mean)) obs) / of_nat (n - 1))
  else nan.

(** [Series.rolling(window=W).mean()] and [.std()]: [min_periods]
    defaults to the window size. *)
Definition rolling_mean (W : nat) (s : Series) : Series := rolling W (roll_mean W) s.
Definition rolling_std (W : nat) (s : Series) : Series := rolling W (roll_std W) s.

(** [Series.iloc[-k]] for [k >= 1]: the [k]-th row from the end. *)
Definition iloc_neg (k : nat) (s : Series) : exn + float :=
  if (1 <=? k)%nat && (k <=? length s)%nat then
    match s !! (length s - k)%nat with
    | Some x => inr x
    | None => inl IndexError
    end
  else inl IndexError.

End Pandas.

(** ** Statements on the store *)

(** A computation reads and writes the store and ends in a value or in
    an exception; the writes made before an exception stay. *)
Definition M (A : Type) : Type := heap -> (exn + A) * heap.

Definition ret {A} (a : A) : M A := fun h => (inr a, h).

Definition raise {A} (e : exn) : M A := fun h => (inl e, h).

Definition bind {A B} (m : M A) (k : A -> M B) : M B :=
  fun h =>
    match m h with
    | (inr a, h') => k a h'
    | (inl e, h') => (inl e, h')
    end.

Definition lift {A} (r : exn + A) : M A :=
  match r with
  | inr a => ret a
  | inl e => raise e
  end.

Declare Scope py_scope.
Delimit Scope py_scope with py.
Notation "x <- m ;; k" := (bind m (fun x => k))
  (at level 100, m at next level, right associativity) : py_scope.
Notation "m ;;; k" := (bind m (fun _ => k))
  (at level 100, right associativity) : py_scope.

(** [df[k]]: the column labelled [k] of the object at [r]. *)
Definition getitem (r : loc) (k : string) : M Series :=
  fun h =>
    match h !! r with
    | None => (inl Dangling, h)
    | Some df =>
        match df !! k with
        | Some s => (inr s, h)
        | None => (inl (KeyError k), h)
        end
    end.

(** [df[k] = s]: the object at [r] gets (or replaces) the column [k]. *)
Definition setitem (r : loc) (k : string) (s : Series) : M unit :=
  fun h =>
    match h !! r with
    | None => (inl Dangling, h)
    | Some df => (inr tt, <[r := <[k := s]> df]> h)
    end.

(** [df[k].iloc[-i]]. *)
Definition iloc (r : loc) (k : string) (i : nat) : M float :=
  (s <- getitem r k ;; lift (Pandas.iloc_neg i s))%py.

(** ** The functions of Investimento.py *)

Definition sqrt_252 : float := PrimFloat.sqrt 252.

Definition seta_cima : string := "⬆️".
Definition seta_baixo : string := "⬇️".

(** [calcular_metricas(df)], lines 22-34: five column assignments on the
    object it was given, which it returns. *)
Definition calcular_metricas (df : loc) : M loc :=
  (adj <- getitem df "Adj Close" ;;
   setitem df "Retorno_Diario" (Pandas.pct_change adj) ;;;
   rd <- getitem df "Retorno_Diario" ;;
   setitem df "Retorno_Acumulado"
     (map (fun x => x - 1) (Pandas.cumprod (map (fun x => 1 + x) rd))) ;;;
   adj <- getitem df "Adj Close" ;;
   setitem df "Media_Movel_50" (Pandas.rolling_mean 50 adj) ;;;
   adj <- getitem df "Adj Close" ;;
   setitem df "Media_Movel_200" (Pandas.rolling_mean 200 adj) ;;;
   rd <- getitem df "Retorno_Diario" ;;
   setitem df "Volatilidade"
     (map (fun x => x * sqrt_252) (Pandas.rolling_std 30 rd)) ;;;
   ret df)%py.

(** [analisar_tendencia(df)], lines 37-43. *)
Definition analisar_tendencia (df : loc) : M (string * string * float) :=
  (a <- iloc df "Media_Movel_50" 1 ;;
   b <- iloc df "Media_Movel_200" 1 ;;
   if b <? a then
     a <- iloc df "Media_Movel_50" 1 ;;
     b <- iloc df "Media_Movel_200" 1 ;;
     let crescimento_percentual := (a / b - 1) * 100 in
     ret ("Crescimento"%string, seta_cima, crescimento_percentual)
   else
     a <- iloc df "Media_Movel_50" 1 ;;
     b <- iloc df "Media_Movel_200" 1 ;;
     let queda_percentual := (1 - a / b) * 100 in
     ret ("Queda"%string, seta_baixo, queda_percentual))%py.

(** [calcular_projecao_crescimento(df)], lines 46-57.  After the clamp
    the variable holds the Python integer 0, and [0 * 100] is the
    integer 0. *)
Definition calcular_projecao_crescimento (df : loc) : M pynum :=
  (a <- iloc df "Media_Movel_50" 1 ;;
   b <- iloc df "Media_Movel_50" 5 ;;
   let momento_crescimento := (a - b) / 5 in
   v <- iloc df "Volatilidade" 1 ;;
   let crescimento_projetado := momento_crescimento * (1 - v) in
   if crescimento_projetado <? 0 then ret (PyInt (0 * 100))
   else ret (PyFloat (crescimento_projetado * 100)))%py.

(** What [recomendar_compra_e_projecao(ticker, df)] computes (lines
    101-116), without the calls that render it. *)
Definition recomendar_compra_e_projecao (df : loc)
  : M (float * (string * string * float) * pynum) :=
  (ultimo_preco <- iloc df "Adj Close" 1 ;;
   tendencia <- analisar_tendencia df ;;
   crescimento_projetado <- calcular_projecao_crescimento df ;;
   ret (ultimo_preco, tendencia, crescimento_projetado))%py.

(** The analysis of one instrument in [main] (lines 158-164): the
    metrics, then the trend and the projection on the returned frame. *)
Definition pipeline (df : loc) : M (float * (string * string * float) * pynum) :=
  (df' <- calcular_metricas df ;;
   recomendar_compra_e_projecao df')%py.

(** The columns [calcular_metricas] leaves on a frame whose price column
    is [adj]. *)
Definition metricas (adj : Series) (df : DataFrame) : DataFrame :=
  let rd := Pandas.pct_change adj in
  <["Volatilidade" := map (fun x => x * sqrt_252) (Pandas.rolling_std 30 rd)]>
  (<["Media_Movel_200" := Pandas.rolling_mean 200 adj]>
  (<["Media_Movel_50" := Pandas.rolling_mean 50 adj]>
  (<["Retorno_Acumulado" :=
       map (fun x => x - 1) (Pandas.cumprod (map (fun x => 1 + x) rd))]>
  (<["Retorno_Diario" := rd]> df)))).

(** ** Reading the results *)


(** A returned number that is not below zero. *)
Definition pynum_nonneg (v : pynum) : bool :=
  match v with
  | PyInt z => (0 <=? z)%Z
  | PyFloat f => (0 <=? f)
  end.

(** The column labelled [k] of the object at [r], and its latest cell. *)
Definition column (h : heap) (r : loc) (k : string) : option Series :=
  match h !! r with
  | Some df => df !! k
  | None => None
  end.

Definition latest (h : heap) (r : loc) (k : string) : option float :=
  match column h r k with
  | Some s => last s
  | None => None
  end.

(** A computation that leaves the store as it found it. *)
Definition readonly {A} (m : M A) : Prop := forall h, snd (m h) = h.

(** The labels [calcular_metricas] assigns. *)
Definition derived_labels : list string :=
  ["Retorno_Diario"; "Retorno_Acumulado"; "Media_Movel_50"; "Media_Movel_200";
   "Volatilidade"]%string.

(** On the specification side of binary64: [sf_signed s y] says that [y]
    is a zero, a finite number or an infinity of sign [s], and
    [sf_finite y] that it is a zero or a finite number. *)
Definition sf_signed (s : bool) (y : spec_float) : Prop :=
  match y with
  | S754_zero s' | S754_infinity s' | S754_finite s' _ _ => s' = s
  | S754_nan => False
  end.

Definition sf_finite (y : spec_float) : Prop :=
  match y with
  | S754_zero _ | S754_finite _ _ _ => True
  | _ => False
  end.

(** The two magnitudes of the worked examples, as binary64 gives them:
    10.000000000000009 and 9.999999999999998. *)
Definition dez_por_cima : float := 0x1.4000000000005p+3.
Definition dez_por_baixo : float := 0x1.3ffffffffffffp+3.

(** The volatility 0.2 of the worked example (the binary64 number
    nearest to it). *)
Definition vol_02 : float := 0x1.999999999999ap-3.

(** ** Frames used as concrete inputs *)

(** A frame that holds only a price column. *)
Definition frame_of (adj : Series) : DataFrame := <["Adj Close" := adj]> ∅.

(** A store with one frame, at reference 1. *)
Definition store_of (df : DataFrame) : heap := <[1%positive := df]> ∅.

(** A frame with the three columns the classifier and the projector
    read. *)
Definition frame_medias (ma50 ma200 vol : Series) : DataFrame :=
  <["Volatilidade" := vol]> (<["Media_Movel_200" := ma200]> (<["Media_Movel_50" := ma50]> ∅)).

(** Sixty rising prices: 100, 101, ..., 159. *)
Definition precos_60 : Series := map (fun n => Pandas.of_nat (100 + n)) (seq 0 60).

(** Three hundred rising prices: 100, 101, ..., 399. *)
Definition precos_300 : Series := map (fun n => Pandas.of_nat (100 + n)) (seq 0 300).

(** Ten prices, too few for any window. *)
Definition precos_10 : Series := [100; 101; 102; 103; 104; 105; 106; 107; 108; 109].

(** ** The page: what the rendering calls are given *)

(** A piece of an f-string: literal text, or a number under the format
    [:.2f], kept as the number it formats. *)
Inductive part : Type :=
  | Txt (s : string)
  | Fmt2f (x : pynum).

(** [go.Scatter(x=df.index, y=..., mode='lines', name=...)]: the column
    plotted and its legend name (the hover text and the colour are left
    out). *)
Record trace : Type := Scatter { trace_y : Series; trace_name : string }.

(** A [go.Figure] after [update_layout]. *)
Record figure : Type :=
  Figure { fig_data : list trace; fig_title : string;
           fig_xaxis : string; fig_yaxis : string }.

(** One call to Streamlit, with its argument. *)
Inductive event : Type :=
  | StSetPageConfig
  | StTitle (s : string)
  | StMarkdown
  | StSubheader (s : string)
  | StWarning (s : string)
  | StError (t : list part)
  | StSuccess (t : list part)
  | StWrite (t : list part)
  | StPlotlyChart (fig : figure).

(** A statement of the application: it works on the store and on the
    page, the list of calls made so far, oldest first. *)
Definition App (A : Type) : Type :=
  heap * list event -> (exn + A) * (heap * list event).

Definition aret {A} (a : A) : App A := fun w => (inr a, w).

Definition abind {A B} (m : App A) (k : A -> App B) : App B :=
  fun w =>
    match m w with
    | (inr a, w') => k a w'
    | (inl e, w') => (inl e, w')
    end.

(** A statement on the store alone, run inside the application. *)
Definition on_store {A} (m : M A) : App A :=
  fun w => match m (fst w) with (r, h') => (r, (h', snd w)) end.

Definition emit (e : event) : App unit := fun w => (inr tt, (fst w, snd w ++ [e])).

Declare Scope app_scope.
Delimit Scope app_scope with app.
Notation "x <- m ;; k" := (abind m (fun x => k))
  (at level 100, m at next level, right associativity) : app_scope.
Notation "m ;;; k" := (abind m (fun _ => k))
  (at level 100, right associativity) : app_scope.

(** [df.empty]: an axis of length 0, that is no column or no row.  The
    columns of a frame have one row count, so this is: every column has
    no cell. *)
Definition df_empty (df : DataFrame) : bool :=
  bool_decide (map_Forall (fun (_ : string) (s : Series) => length s = 0%nat) df).

Definition empty_of (r : loc) : M bool :=
  fun h =>
    match h !! r with
    | None => (inl Dangling, h)
    | Some df => (inr (df_empty df), h)
    end.

(** A new object: it gets an identity no live object has. *)
Definition alloc (df : DataFrame) : App loc :=
  fun w => let l := fresh (dom (fst w)) in (inr l, (<[l := df]> (fst w), snd w)).

(** What one call [yf.download(ticker, period="1y")] did: it returned a
    frame, or raised an exception, of which the text is kept. *)
Abbreviation yf_outcome := (string + gmap string (list float))%type.

(** [pegar_dados_yahoo(tickers)], lines 10-19, from its [i]-th download
    on; [yf i ticker] is the outcome of that download.  The cache of
    [st.cache_data] is left out: this is one uncached call. *)
Fixpoint pegar_dados_from (yf : nat -> string -> yf_outcome) (i : nat)
    (tickers : list string) (dados : gmap string positive)
  : App (gmap string positive) :=
  match tickers with
  | [] => aret dados
  | ticker :: rest =>
      match yf i ticker with
      | inr df =>
          (l <- alloc df ;;
           let dados := <[ticker := l]> dados in
           vazio <- on_store (empty_of l) ;;
           (if vazio : bool then
              emit (StWarning ("Nenhum dado encontrado para " +:+ ticker +:+
                               " no Yahoo Finance."))
            else aret tt) ;;;
           pegar_dados_from yf (S i) rest dados)%app
      | inl e =>
          (emit (StError [Txt ("Erro ao baixar dados para " +:+ ticker +:+
                               " no Yahoo Finance: " +:+ e)]) ;;;
           pegar_dados_from yf (S i) rest dados)%app
      end
  end.

Definition pegar_dados_yahoo (yf : nat -> string -> yf_outcome) (tickers : list string)
  : App (gmap string positive) :=
  pegar_dados_from yf 0 tickers ∅.

(** [exibir_graficos(ticker, df)], lines 60-98. *)
Definition exibir_graficos (ticker : string) (df : loc) : App unit :=
  (emit (StSubheader ("Análise de " +:+ ticker)) ;;;
   adj <- on_store (getitem df "Adj Close") ;;
   mm50 <- on_store (getitem df "Media_Movel_50") ;;
   mm200 <- on_store (getitem df "Media_Movel_200") ;;
   emit (StPlotlyChart
           (Figure [Scatter adj "Preço Ajustado";
                    Scatter mm50 "Média Móvel 50 dias";
                    Scatter mm200 "Média Móvel 200 dias"]
                   ("Preço Ajustado e Médias Móveis - " +:+ ticker)
                   "Data" "Preço Ajustado")) ;;;
   ret_acum <- on_store (getitem df "Retorno_Acumulado") ;;
   emit (StPlotlyChart
           (Figure [Scatter ret_acum "Retorno Acumulado"]
                   ("Retorno Acumulado - " +:+ ticker)
                   "Data" "Retorno Acumulado")) ;;;
   vol <- on_store (getitem df "Volatilidade") ;;
   emit (StPlotlyChart
           (Figure [Scatter vol "Volatilidade (Anualizada)"]
                   ("Volatilidade (Anualizada) - " +:+ ticker)
                   "Data" "Volatilidade")))%app.

(** [recomendar_compra_e_projecao(ticker, df)], lines 101-116, with the
    calls that render it. *)
Definition recomendar_compra_e_projecao_tela (ticker : string) (df : loc) : App unit :=
  (ultimo_preco <- on_store (iloc df "Adj Close" 1) ;;
   emit (StWrite [Txt ("**Preço mais recente de " +:+ ticker +:+ ":** $");
                  Fmt2f (PyFloat ultimo_preco)]) ;;;
   resultado <- on_store (analisar_tendencia df) ;;
   let '(tendencia, seta, percentual) := resultado in
   (if String.eqb tendencia "Crescimento" then
      emit (StSuccess [Txt (seta +:+ " **Recomendação:** " +:+ ticker +:+
                            " está em **Crescimento** (");
                       Fmt2f (PyFloat percentual);
                       Txt "% de crescimento). Bom para compra a longo prazo."])
    else
      emit (StError [Txt (seta +:+ " **Recomendação:** " +:+ ticker +:+
                          " está em **Queda** (");
                     Fmt2f (PyFloat percentual);
                     Txt "% de queda). Melhor evitar no longo prazo."])) ;;;
   crescimento_projetado <- on_store (calcular_projecao_crescimento df) ;;
   emit (StWrite [Txt "**Crescimento projetado para o longo prazo**: ";
                  Fmt2f crescimento_projetado; Txt "%"]))%app.

(** The loop of [main], lines 150-164, over the frames downloaded.  A
    symbol without an entry gets a new empty frame, which nothing else
    refers to. *)
Fixpoint analisar_tickers (dados : gmap string positive) (tickers : list string)
  : App unit :=
  match tickers with
  | [] => aret tt
  | ticker :: rest =>
      let sem_dados :=
        emit (StWarning ("Não foi possível encontrar dados para " +:+ ticker +:+ ".")) in
      match dados !! ticker with
      | None => (sem_dados ;;; analisar_tickers dados rest)%app
      | Some df =>
          (vazio <- on_store (empty_of df) ;;
           if vazio : bool then (sem_dados ;;; analisar_tickers dados rest)
           else
             df <- on_store (calcular_metricas df) ;;
             exibir_graficos ticker df ;;;
             recomendar_compra_e_projecao_tela ticker df ;;;
             analisar_tickers dados rest)%app
      end
  end.

(** The nineteen symbols offered in the sidebar. *)
Definition tickers_lista : list string :=
  ["SANB11"; "PETR4"; "IFCM3"; "OSXB3"; "MGHT11"; "BRKM6"; "SNSY5";
   "NIO"; "SQ"; "PLTR"; "DKNG"; "ROKU"; "AAPL"; "MSFT"; "AMZN"; "GOOGL"; "TSLA";
   "NVDA"; "JNJ"]%string.

(** [main()], lines 119-164.  Its inputs are what the three sidebar
    widgets return: the symbols selected, the text typed and whether
    the button was pressed; [upper] is Python's [str.upper]. *)
Definition main (upper : string -> string) (yf : nat -> string -> yf_outcome)
    (selecionados : list string) (ticker_personalizado : string) (analisar : bool)
  : App unit :=
  (emit StSetPageConfig ;;;
   emit (StTitle "Análise de Investimentos com Projeção de Crescimento") ;;;
   emit StMarkdown ;;;
   let tickers_acoes :=
     if String.eqb ticker_personalizado "" then selecionados
     else selecionados ++ [upper ticker_personalizado] in
   if analisar then
     emit (StTitle "Análise das Ações Selecionadas") ;;;
     dados_yahoo <- pegar_dados_yahoo yf tickers_acoes ;;
     analisar_tickers dados_yahoo tickers_acoes
   else aret tt)%app.

(** ** Outcomes read off a run *)

(** The kind of a call. *)
Definition is_success (e : event) : bool :=
  match e with StSuccess _ => true | _ => false end.

Definition is_error (e : event) : bool :=
  match e with StError _ => true | _ => false end.

Definition is_warning (e : event) : bool :=
  match e with StWarning _ => true | _ => false end.


(** A provider that answers no symbol: every download raises. *)
Definition yf_fora_do_ar (i : nat) (ticker : string) : yf_outcome :=
  inl "No data found, symbol may be delisted"%string.

(** A provider that knows two symbols: sixty prices for AAPL, an empty
    frame for NIO, and an exception for any other. *)
Definition yf_exemplo (i : nat) (ticker : string) : yf_outcome :=
  if String.eqb ticker "AAPL" then inr (frame_of precos_60)
  else if String.eqb ticker "NIO" then inr (frame_of [])
  else inl "No data found, symbol may be delisted"%string.


(** What the download loop keeps true: every entry of the dictionary
    refers to a live frame, and no two entries refer to the same one. *)
Definition dados_ok (dados : gmap string positive) (h : heap) : Prop :=
  (forall k l, dados !! k = Some l -> is_Some (h !! l)) /\
  (forall k1 k2 l, dados !! k1 = Some l -> dados !! k2 = Some l -> k1 = k2).

(** * Proofs *)

(** ** The pandas operations on small inputs *)

Example pct_change_pads :
  Pandas.pct_change [1; 2; nan; 4; 0; 0; 1] = [nan; 1; 0; 1; -1; nan; infinity].
Proof. reflexivity. Qed.

Example cumprod_skips_missing :
  Pandas.cumprod [nan; 2; 3; nan; 4] = [nan; 2; 6; nan; 24].
Proof. reflexivity. Qed.

Example rolling_mean_needs_full_window :
  Pandas.rolling_mean 3 [1; 2; 3; 4; nan; 6; 7; 8; 9] =
    [nan; nan; 2; 3; nan; nan; nan; 7; 8].
Proof. reflexivity. Qed.

Example rolling_std_sample :
  Pandas.rolling_std 3 [1; 2; 3; 4; nan; 6; 7; 8; 9] =
    [nan; nan; 1; 1; nan; nan; nan; 1; 1].
Proof. reflexivity. Qed.

Example iloc_neg_rows :
  Pandas.iloc_neg 1 [10; 20; 30] = inr 30 /\
  Pandas.iloc_neg 3 [10; 20; 30] = inr 10 /\
  Pandas.iloc_neg 4 [10; 20; 30] = inl IndexError /\
  Pandas.iloc_neg 1 [] = inl IndexError.
Proof. repeat split. Qed.

(** The analysis of ten prices: the frame comes back with every window
    still empty, the trend is the Decline label with a NaN magnitude and
    the projection is NaN. *)
Example pipeline_ten_prices :
  fst (pipeline 1 (store_of (frame_of precos_10))) =
    inr (109, ("Queda"%string, seta_baixo, nan), PyFloat nan).
Proof. reflexivity. Qed.

(** The analysis of three hundred rising prices: the Growth label with
    a magnitude above zero, and a projection above zero. *)
Example pipeline_rising_prices :
  match fst (pipeline 1 (store_of (frame_of precos_300))) with
  | inr (ultimo, (tendencia, _, percentual), PyFloat projecao) =>
      ultimo = 399 /\ tendencia = "Crescimento"%string /\
      (0 <? percentual) = true /\ (0 <? projecao) = true
  | _ => False
  end.
Proof. vm_compute. repeat split. Qed.

(** The two worked magnitudes are within [2^-46] (about 1.4e-14) of
    10, and neither is 10. *)
Example worked_magnitudes_close :
  (110 / 100 - 1) * 100 = dez_por_cima /\
  (1 - 90 / 100) * 100 = dez_por_baixo /\
  (abs (dez_por_cima - 10) <? 0x1p-46) = true /\
  (abs (dez_por_baixo - 10) <? 0x1p-46) = true /\
  (dez_por_cima =? 10) = false /\ (dez_por_baixo =? 10) = false.
Proof. repeat split. Qed.

(** Padding forward changes nothing where no cell is missing. *)
Lemma ffill_from_notna prev s :
  forallb Pandas.notna s = true -> Pandas.ffill_from prev s = s.
Proof.
  revert prev. induction s as [|x s IH]; intros prev H; [reflexivity|].
  cbn [forallb] in H. apply andb_prop in H as [Hx Hs].
  cbn [Pandas.ffill_from]. unfold Pandas.isna. unfold Pandas.notna in Hx.
  destruct (is_nan x); [discriminate|]. now rewrite IH.
Qed.

Lemma ffill_notna s : forallb Pandas.notna s = true -> Pandas.ffill s = s.
Proof. apply ffill_from_notna. Qed.

Module Binary64.

(** ** Binary64: how NaN and finiteness read on the specification side *)

Lemma SFcompare_self (x : spec_float) :
  x <> S754_nan -> SFcompare x x = Some Eq.
Proof.
  destruct x as [s|s| |s m e]; simpl; try congruence; intros _.
  - now destruct s.
  - rewrite Z.compare_refl, Pos.compare_cont_refl. now destruct s.
Qed.

Lemma is_nan_Prim2SF (x : float) :
  is_nan x = match Prim2SF x with S754_nan => true | _ => false end.
Proof.
  unfold is_nan. rewrite FloatAxioms.eqb_spec. unfold SFeqb.
  destruct (Prim2SF x) as [s|s| |s m e] eqn:E; try reflexivity;
    rewrite SFcompare_self by discriminate; reflexivity.
Qed.

Lemma is_nan_true (x : float) : is_nan x = true <-> x = nan.
Proof.
  rewrite is_nan_Prim2SF. split.
  - intros H. apply Prim2SF_inj. destruct (Prim2SF x); try discriminate. reflexivity.
  - intros ->. reflexivity.
Qed.

Lemma is_infinity_Prim2SF (x : float) :
  is_infinity x = match Prim2SF x with S754_infinity _ => true | _ => false end.
Proof.
  unfold is_infinity. rewrite FloatAxioms.eqb_spec, abs_spec. unfold SFeqb.
  destruct (Prim2SF x) as [s|s| |s m e]; reflexivity.
Qed.

Lemma is_finite_Prim2SF (x : float) :
  is_finite x =
  match Prim2SF x with S754_zero _ | S754_finite _ _ _ => true | _ => false end.
Proof.
  unfold is_finite. rewrite is_nan_Prim2SF, is_infinity_Prim2SF.
  destruct (Prim2SF x); reflexivity.
Qed.

Lemma Prim2SF_nan : Prim2SF nan = S754_nan.
Proof. reflexivity. Qed.

Ltac nan_case x :=
  apply Prim2SF_inj;
  rewrite ?mul_spec, ?div_spec, ?sub_spec, ?add_spec, ?Prim2SF_nan;
  destruct (Prim2SF x) as [[]|[]| |[] ? ?]; reflexivity.

Lemma div_nan_l x : nan / x = nan.  Proof. nan_case x. Qed.
Lemma div_nan_r x : x / nan = nan.  Proof. nan_case x. Qed.
Lemma sub_nan_l x : nan - x = nan.  Proof. nan_case x. Qed.
Lemma sub_nan_r x : x - nan = nan.  Proof. nan_case x. Qed.
Lemma mul_nan_l x : nan * x = nan.  Proof. nan_case x. Qed.
Lemma mul_nan_r x : x * nan = nan.  Proof. nan_case x. Qed.
Lemma add_nan_l x : nan + x = nan.  Proof. nan_case x. Qed.
Lemma add_nan_r x : x + nan = nan.  Proof. nan_case x. Qed.

Lemma ltb_nan_l x : (nan <? x) = false.
Proof. rewrite ltb_spec, Prim2SF_nan. reflexivity. Qed.

Lemma ltb_nan_r x : (x <? nan) = false.
Proof. rewrite ltb_spec, Prim2SF_nan. unfold SFltb. now destruct (Prim2SF x). Qed.

(** ** Rounding keeps the sign and never invents a NaN *)

Lemma iter_pos_invariant {A} (P : A -> Prop) (f : A -> A) :
  (forall x, P x -> P (f x)) -> forall p x, P x -> P (SpecFloat.iter_pos f p x).
Proof.
  intros Hf. induction p as [p IH|p IH|]; intros x Hx; simpl; auto.
Qed.

Lemma shr_1_nonneg mrs : (0 <= shr_m mrs)%Z -> (0 <= shr_m (shr_1 mrs))%Z.
Proof.
  destruct mrs as [m r s]. simpl. intros Hm.
  destruct m as [|[p|p|]|p]; simpl; lia.
Qed.

Lemma shr_nonneg mrs e n :
  (0 <= shr_m mrs)%Z -> (0 <= shr_m (fst (shr mrs e n)))%Z.
Proof.
  intros Hm. destruct n as [|p|p]; simpl; try assumption.
  apply (iter_pos_invariant (fun r => (0 <= shr_m r)%Z)); auto using shr_1_nonneg.
Qed.

Lemma shr_record_of_loc_m m l : shr_m (shr_record_of_loc m l) = m.
Proof. destruct l as [|[]]; reflexivity. Qed.

Lemma shr_fexp_nonneg m e l :
  (0 <= m)%Z -> (0 <= shr_m (fst (shr_fexp prec emax m e l)))%Z.
Proof.
  intros Hm. unfold shr_fexp. apply shr_nonneg. now rewrite shr_record_of_loc_m.
Qed.

Lemma round_nearest_even_nonneg m l :
  (0 <= m)%Z -> (0 <= round_nearest_even m l)%Z.
Proof.
  intros Hm. destruct l as [|[]]; simpl; try lia. destruct (Z.even m); lia.
Qed.

Lemma binary_round_aux_signed sx mx ex lx :
  (0 <= mx)%Z -> sf_signed sx (binary_round_aux prec emax sx mx ex lx).
Proof.
  intros Hm. unfold binary_round_aux.
  pose proof (shr_fexp_nonneg mx ex lx Hm) as H1.
  destruct (shr_fexp prec emax mx ex lx) as [mrs' e']. simpl in H1.
  pose proof (shr_fexp_nonneg
                (round_nearest_even (shr_m mrs') (loc_of_shr_record mrs')) e' loc_Exact
                (round_nearest_even_nonneg _ _ H1)) as H2.
  destruct (shr_fexp prec emax _ e' loc_Exact) as [mrs'' e'']. simpl in H2.
  destruct (shr_m mrs'') as [|m|m]; simpl; try reflexivity; try lia.
  destruct (e'' <=? emax - prec)%Z; reflexivity.
Qed.



Lemma sf_signed_not_nan s y : sf_signed s y -> y <> S754_nan.
Proof. destruct y; simpl; congruence. Qed.

Lemma SFmul_finite_not_nan x y :
  match x with S754_zero _ | S754_finite _ _ _ => True | _ => False end ->
  match y with S754_zero _ | S754_finite _ _ _ => True | _ => False end ->
  SF64mul x y <> S754_nan.
Proof.
  destruct x as [sx|sx| |sx mx ex]; try contradiction;
    destruct y as [sy|sy| |sy my ey]; try contradiction; intros _ _;
    unfold SF64mul; simpl; try discriminate.
  eapply sf_signed_not_nan, binary_round_aux_signed. lia.
Qed.




(** The same facts on [float]. *)

Lemma mul_finite_not_nan x y :
  is_finite x = true -> is_finite y = true -> is_nan (x * y) = false.
Proof.
  rewrite !is_finite_Prim2SF, is_nan_Prim2SF, mul_spec. intros Hx Hy.
  pose proof (SFmul_finite_not_nan (Prim2SF x) (Prim2SF y)) as H.
  destruct (Prim2SF x); try discriminate; destruct (Prim2SF y); try discriminate;
    specialize (H I I); destruct (SF64mul _ _); congruence.
Qed.



(** A product with 100 of a number that is neither NaN nor negative is
    not negative. *)
Lemma mul_100_nonneg x :
  is_nan x = false -> (x <? 0) = false -> (0 <=? x * 100) = true.
Proof.
  rewrite is_nan_Prim2SF, ltb_spec, leb_spec, mul_spec.
  change (Prim2SF 0) with (S754_zero false).
  change (Prim2SF 100) with (S754_finite false 7036874417766400 (-46)).
  destruct (Prim2SF x) as [s|s| |s m e]; try discriminate; intros _.
  - now destruct s.
  - now destruct s.
  - destruct s; [discriminate|]. intros _.
    unfold SF64mul, SFmul. cbn [xorb].
    pose proof (binary_round_aux_signed false
                  (Z.pos (m * 7036874417766400)) (e + -46) loc_Exact ltac:(lia)) as H.
    destruct (binary_round_aux _ _ _ _ _ _) as [s'|s'| |s' m' e']; simpl in H;
      try contradiction; subst; reflexivity.
Qed.

(** A finite non-zero number divided by itself is exactly 1. *)
Lemma SFdiv_self s m e :
  SF64div (S754_finite s m e) (S754_finite s m e) = Prim2SF 1.
Proof.
  unfold SF64div, SFdiv, SFdiv_core_binary.
  replace (Zdigits2 (Z.pos m) + e - (Zdigits2 (Z.pos m) + e))%Z with 0%Z by lia.
  rewrite Z.sub_diag.
  change (Z.min (fexp prec emax 0) 0) with (-53)%Z.
  change (0 - -53)%Z with 53%Z. cbv iota beta.
  rewrite Z.shiftl_mul_pow2 by lia.
  destruct (Z.div_eucl _ _) as [q r] eqn:E.
  assert (q = 2 ^ 53)%Z as ->.
  { transitivity (Z.pos m * 2 ^ 53 / Z.pos m)%Z; [unfold Z.div; now rewrite E|].
    rewrite Z.mul_comm. apply Z.div_mul. lia. }
  assert (r = 0)%Z as ->.
  { transitivity ((Z.pos m * 2 ^ 53) mod Z.pos m)%Z; [unfold Z.modulo; now rewrite E|].
    rewrite Z.mul_comm. apply Z.mod_mul. lia. }
  assert (new_location (Z.pos m) 0 = loc_Exact) as ->.
  { unfold new_location, new_location_even, new_location_odd.
    destruct (Z.even _); reflexivity. }
  rewrite xorb_nilpotent. vm_compute. reflexivity.
Qed.

Lemma div_self x :
  is_finite x = true -> (x =? 0) = false -> x / x = 1.
Proof.
  rewrite is_finite_Prim2SF, FloatAxioms.eqb_spec.
  change (Prim2SF 0) with (S754_zero false). intros Hf Hz.
  apply Prim2SF_inj. rewrite div_spec.
  destruct (Prim2SF x) as [s|s| |s m e]; try discriminate.
  apply SFdiv_self.
Qed.

Lemma ltb_irrefl x : (x <? x) = false.
Proof.
  rewrite ltb_spec. unfold SFltb.
  destruct (Prim2SF x) as [s|s| |s m e] eqn:E; try reflexivity;
    rewrite SFcompare_self by discriminate; reflexivity.
Qed.

Section Overflow.

Local Open Scope Z_scope.

(** ** Rounding cannot overflow below the last half ulp *)

Lemma fexp_eq x : fexp prec emax x = Z.max (x - 53) (-1074).
Proof. reflexivity. Qed.

Lemma digits2_pos_bounds p :
  2 ^ (Z.pos (digits2_pos p) - 1) <= Z.pos p < 2 ^ Z.pos (digits2_pos p).
Proof.
  induction p as [p IH|p IH|]; simpl digits2_pos.
  - rewrite Pos2Z.inj_succ. replace (Z.succ (Z.pos (digits2_pos p)) - 1) with (Z.succ (Z.pos (digits2_pos p) - 1)) by lia.
    rewrite !Z.pow_succ_r by lia. lia.
  - rewrite Pos2Z.inj_succ. replace (Z.succ (Z.pos (digits2_pos p)) - 1) with (Z.succ (Z.pos (digits2_pos p) - 1)) by lia.
    rewrite !Z.pow_succ_r by lia. lia.
  - simpl. lia.
Qed.

Lemma pos_iter_xO_value m d : Z.pos (Pos.iter xO m d) = Z.pos m * 2 ^ Z.pos d.
Proof.
  induction d as [|d IH] using Pos.peano_ind.
  - simpl. lia.
  - rewrite Pos.iter_succ, Pos2Z.inj_succ, Z.pow_succ_r by lia.
    rewrite Pos2Z.inj_xO, IH. lia.
Qed.

Lemma pos_iter_xO_digits m d :
  Z.pos (digits2_pos (Pos.iter xO m d)) = Z.pos (digits2_pos m) + Z.pos d.
Proof.
  induction d as [|d IH] using Pos.peano_ind.
  - simpl. lia.
  - rewrite Pos.iter_succ. simpl digits2_pos. rewrite !Pos2Z.inj_succ, IH. lia.
Qed.

Lemma iter_pos_nat {A} (f : A -> A) p x :
  SpecFloat.iter_pos f p x = Nat.iter (Pos.to_nat p) f x.
Proof.
  revert x. induction p as [p IH|p IH|]; intros x; simpl SpecFloat.iter_pos.
  - rewrite !IH, Pos2Nat.inj_xI.
    replace (S (2 * Pos.to_nat p))%nat with (Pos.to_nat p + (Pos.to_nat p + 1))%nat by lia.
    rewrite !Nat.iter_add. reflexivity.
  - rewrite !IH, Pos2Nat.inj_xO.
    replace (2 * Pos.to_nat p)%nat with (Pos.to_nat p + Pos.to_nat p)%nat by lia.
    rewrite Nat.iter_add. reflexivity.
  - reflexivity.
Qed.

Lemma shr_1_m mrs : 0 <= shr_m mrs -> shr_m (shr_1 mrs) = shr_m mrs / 2.
Proof.
  destruct mrs as [m r s]. simpl. intros Hm. rewrite <- Z.div2_div.
  destruct m as [|[p|p|]|p]; simpl; try reflexivity; lia.
Qed.

Lemma shr_1_r mrs : 0 <= shr_m mrs -> shr_r (shr_1 mrs) = Z.odd (shr_m mrs).
Proof.
  destruct mrs as [m r s]. simpl. intros Hm.
  destruct m as [|[p|p|]|p]; simpl; try reflexivity; lia.
Qed.

Lemma shr_iter_m n mrs :
  0 <= shr_m mrs ->
  shr_m (Nat.iter n shr_1 mrs) = shr_m mrs / 2 ^ Z.of_nat n.
Proof.
  intros Hm. induction n as [|n IH].
  - simpl. now rewrite Z.div_1_r.
  - change (Nat.iter (S n) shr_1 mrs) with (shr_1 (Nat.iter n shr_1 mrs)).
    rewrite shr_1_m.
    + rewrite IH, Nat2Z.inj_succ, Z.pow_succ_r by lia.
      rewrite Z.div_div by lia. f_equal. lia.
    + rewrite IH. apply Z.div_pos; lia.
Qed.

Lemma shr_iter_r n mrs :
  0 <= shr_m mrs ->
  shr_r (Nat.iter (S n) shr_1 mrs) = Z.odd (shr_m mrs / 2 ^ Z.of_nat n).
Proof.
  intros Hm. change (Nat.iter (S n) shr_1 mrs) with (shr_1 (Nat.iter n shr_1 mrs)).
  rewrite shr_1_r.
  - now rewrite shr_iter_m.
  - rewrite shr_iter_m by assumption. apply Z.div_pos; lia.
Qed.

Lemma Zdigits2_bounds m :
  0 < m -> 2 ^ (Zdigits2 m - 1) <= m < 2 ^ Zdigits2 m.
Proof. destruct m as [|p|p]; try lia. intros _. apply digits2_pos_bounds. Qed.

Lemma Zdigits2_le m b : 0 <= b -> 0 <= m < 2 ^ b -> Zdigits2 m <= b.
Proof.
  intros Hb [Hm Hlt]. destruct (Z.eq_dec m 0) as [->|Hne]; [simpl; lia|].
  pose proof (Zdigits2_bounds m ltac:(lia)) as [Hlo _].
  assert (2 ^ (Zdigits2 m - 1) < 2 ^ b) as H by lia.
  apply Z.pow_lt_mono_r_iff in H; lia.
Qed.

(** What the first shift of a rounding leaves, for an exact input. *)
Lemma shr_fexp_exact_stay m e :
  fexp prec emax (Zdigits2 m + e) <= e ->
  shr_fexp prec emax m e loc_Exact = (Build_shr_record m false false, e).
Proof.
  intros H. unfold shr_fexp, shr. simpl shr_record_of_loc.
  destruct (fexp prec emax (Zdigits2 m + e) - e) eqn:E; try reflexivity. lia.
Qed.

Lemma shr_fexp_exact_shift m e :
  0 <= m ->
  e < fexp prec emax (Zdigits2 m + e) ->
  exists mrs,
    shr_fexp prec emax m e loc_Exact = (mrs, fexp prec emax (Zdigits2 m + e)) /\
    shr_m mrs = m / 2 ^ (fexp prec emax (Zdigits2 m + e) - e) /\
    shr_r mrs = Z.odd (m / 2 ^ (fexp prec emax (Zdigits2 m + e) - e - 1)).
Proof.
  intros Hm H. unfold shr_fexp, shr. simpl shr_record_of_loc.
  set (E := fexp prec emax (Zdigits2 m + e)) in *.
  destruct (E - e) as [|p|p] eqn:Ek; try lia.
  eexists. split; [f_equal; lia|].
  rewrite iter_pos_nat.
  destruct (Pos2Nat.is_succ p) as [n Hn]. rewrite Hn.
  assert (Z.pos p = Z.of_nat (S n)) as Hp by (rewrite <- Hn; now rewrite positive_nat_Z).
  split.
  - rewrite shr_iter_m by (simpl; lia). simpl shr_m. now rewrite Hp.
  - rewrite shr_iter_r by (simpl; lia). simpl shr_m.
    replace (Z.pos p - 1) with (Z.of_nat n) by lia. reflexivity.
Qed.

Lemma shr_fexp_exp_le m e l B :
  e <= B -> fexp prec emax (Zdigits2 m + e) <= B ->
  snd (shr_fexp prec emax m e l) <= B.
Proof.
  intros He HE. unfold shr_fexp, shr.
  destruct (fexp prec emax (Zdigits2 m + e) - e) eqn:Ek; simpl; lia.
Qed.

Lemma round_nearest_even_cases mrs :
  let q := shr_m mrs in
  let m1 := round_nearest_even q (loc_of_shr_record mrs) in
  m1 = q \/ (m1 = q + 1 /\ shr_r mrs = true).
Proof.
  destruct mrs as [q [] []]; simpl; auto. destruct (Z.even q); auto.
Qed.

Lemma binary_round_aux_no_overflow sx m e :
  0 < m -> e <= 970 ->
  e <= fexp prec emax (Zdigits2 m + e) ->
  m < (2 ^ 54 - 1) * 2 ^ (970 - e) ->
  sf_finite (binary_round_aux prec emax sx m e loc_Exact).
Proof.
  intros Hm He Hal Hb.
  pose proof (Zdigits2_bounds m Hm) as [Hdlo Hdhi].
  set (d := Zdigits2 m) in *.
  assert (d + e <= 1024) as Hde.
  { assert (2 ^ (d - 1) < 2 ^ (1024 - e)) as H.
    { replace (1024 - e) with (54 + (970 - e)) by lia.
      rewrite Z.pow_add_r by lia.
      assert (0 < 2 ^ (970 - e)) by (apply Z.pow_pos_nonneg; lia). nia. }
    apply Z.pow_lt_mono_r_iff in H; lia. }
  assert (0 < d) as Hdpos.
  { subst d. destruct m; simpl; lia. }
  set (E := fexp prec emax (d + e)) in *.
  assert (E <= 971) as HE by (subst E; rewrite fexp_eq; lia).
  assert (d + e - 53 <= E) as HE' by (subst E; rewrite fexp_eq; lia).
  (* the mantissa after the first shift and rounding, and its exponent *)
  assert (exists mrs' m1,
             shr_fexp prec emax m e loc_Exact = (mrs', E) /\
             m1 = round_nearest_even (shr_m mrs') (loc_of_shr_record mrs') /\
             0 <= m1 /\ (E <= 970 -> m1 <= 2 ^ 53) /\ (E = 971 -> m1 < 2 ^ 53))
    as (mrs' & m1 & Hshr & Hm1 & Hm1pos & Hm1a & Hm1b).
  { destruct (Z.eq_dec e E) as [Heq|Hne].
    - exists (Build_shr_record m false false), m.
      rewrite shr_fexp_exact_stay by (fold d; fold E; lia).
      assert (m < 2 ^ 53).
      { assert (d <= 53) by lia.
        eapply Z.lt_le_trans; [exact Hdhi|]. apply Z.pow_le_mono_r; lia. }
      repeat split; simpl; try lia. now rewrite Heq.
    - destruct (shr_fexp_exact_shift m e ltac:(lia)) as (mrs & Hs & Hq & Hr).
      { fold d. fold E. lia. }
      fold d in Hs, Hq, Hr. fold E in Hs, Hq, Hr.
      exists mrs, (round_nearest_even (shr_m mrs) (loc_of_shr_record mrs)).
      set (k := E - e) in *.
      assert (0 < k) as Hk by (subst k; lia).
      assert (0 < 2 ^ k) as Hpk by (apply Z.pow_pos_nonneg; lia).
      assert (0 <= shr_m mrs) as Hq0 by (rewrite Hq; apply Z.div_pos; lia).
      assert (shr_m mrs < 2 ^ 53) as Hq53.
      { rewrite Hq. apply Z.div_lt_upper_bound; [lia|].
        rewrite <- Z.pow_add_r by lia.
        eapply Z.lt_le_trans; [exact Hdhi|]. apply Z.pow_le_mono_r; lia. }
      split; [exact Hs|]. split; [reflexivity|].
      destruct (round_nearest_even_cases mrs) as [Hrn|[Hrn Hrb]]; cbv zeta in Hrn;
        rewrite Hrn; repeat split; try lia.
      intros HE971.
      (* rounding up at the top binade needs the half ulp the bound excludes *)
      rewrite Hrb in Hr. symmetry in Hr.
      assert (0 < 2 ^ (k - 1)) as Hpk1 by (apply Z.pow_pos_nonneg; lia).
      set (a := m / 2 ^ (k - 1)) in *.
      assert (a / 2 = shr_m mrs) as Ha2.
      { rewrite Hq. subst a. rewrite Z.div_div by lia.
        f_equal. replace k with (Z.succ (k - 1)) at 2 by lia.
        rewrite Z.pow_succ_r by lia. lia. }
      assert (a = 2 * shr_m mrs + 1) as Ha.
      { rewrite <- Ha2. rewrite (Z.div_mod a 2) at 1 by lia.
        rewrite Zmod_odd, Hr. lia. }
      assert (2 ^ (k - 1) * a <= m) as Hle by (subst a; apply Z.mul_div_le; lia).
      assert (k - 1 = 970 - e) as Hk1 by (subst k; lia).
      rewrite Hk1 in *. nia. }
  unfold binary_round_aux. rewrite Hshr. rewrite <- Hm1.
  pose proof (shr_fexp_nonneg m1 E loc_Exact Hm1pos) as Hnn.
  pose proof (shr_fexp_exp_le m1 E loc_Exact 971 HE) as Hexp.
  destruct (shr_fexp prec emax m1 E loc_Exact) as [mrs'' e'']. simpl in Hnn, Hexp.
  destruct (shr_m mrs'') as [|p|p]; simpl; try lia.
  assert (e'' <= 971) as Hfin.
  { apply Hexp. rewrite fexp_eq.
    destruct (Z.eq_dec m1 0) as [->|Hne]; [simpl; lia|].
    destruct (Z.eq_dec E 971) as [HE971|HEne].
    - pose proof (Zdigits2_le m1 53 ltac:(lia) ltac:(split; [lia|auto])). lia.
    - assert (m1 < 2 ^ 54) by (specialize (Hm1a ltac:(lia)); lia).
      pose proof (Zdigits2_le m1 54 ltac:(lia) ltac:(split; [lia|auto])). lia. }
  apply Z.leb_le in Hfin. change (emax - prec) with 971. rewrite Hfin. exact I.
Qed.

Lemma binary_round_no_overflow sx mx ex :
  ex <= 970 -> Z.pos mx < (2 ^ 54 - 1) * 2 ^ (970 - ex) ->
  sf_finite (binary_round prec emax sx mx ex).
Proof.
  intros He Hb. unfold binary_round, shl_align.
  set (F := fexp prec emax (Z.pos (digits2_pos mx) + ex)).
  destruct (F - ex) as [|d|d] eqn:Ed.
  - apply binary_round_aux_no_overflow; try lia. simpl Zdigits2. fold F. lia.
  - apply binary_round_aux_no_overflow; try lia. simpl Zdigits2. fold F. lia.
  - assert (ex = F + Z.pos d) as Hex by lia.
    apply binary_round_aux_no_overflow; try lia.
    + simpl Zdigits2. rewrite pos_iter_xO_digits.
      replace (Z.pos (digits2_pos mx) + Z.pos d + F)
        with (Z.pos (digits2_pos mx) + ex) by lia.
      fold F. lia.
    + rewrite pos_iter_xO_value.
      replace (970 - F) with (970 - ex + Z.pos d) by lia.
      rewrite Z.pow_add_r by lia.
      assert (0 < 2 ^ Z.pos d) by (apply Z.pow_pos_nonneg; lia). nia.
Qed.

Lemma shl_align_value mx ex ez :
  ez <= ex -> Z.pos (fst (shl_align mx ex ez)) = Z.pos mx * 2 ^ (ex - ez).
Proof.
  intros H. unfold shl_align. destruct (ez - ex) as [|d|d] eqn:Ed; simpl fst; try lia.
  - replace (ex - ez) with 0 by lia. lia.
  - rewrite pos_iter_xO_value. f_equal. f_equal. lia.
Qed.

Lemma valid_binary_bounds s m e :
  valid_binary (S754_finite s m e) = true -> Z.pos m < 2 ^ 53 /\ -1074 <= e <= 971.
Proof.
  unfold SpecFloat.valid_binary, bounded, canonical_mantissa. rewrite fexp_eq.
  intros H. apply andb_prop in H as [Hc He].
  apply Z.eqb_eq in Hc. apply Z.leb_le in He. change (emax - prec) with 971 in He.
  split; [|lia].
  pose proof (digits2_pos_bounds m) as [_ Hhi].
  eapply Z.lt_le_trans; [exact Hhi|]. apply Z.pow_le_mono_r; lia.
Qed.

(** [1 - v] is finite for every finite [v]: the largest magnitude,
    [1 + max_float], still rounds to [max_float]. *)
Lemma SFsub_one_finite s m e :
  valid_binary (S754_finite s m e) = true ->
  sf_finite (SF64sub (Prim2SF 1) (S754_finite s m e)).
Proof.
  intros Hv. apply valid_binary_bounds in Hv as [Hm [Helo Hehi]].
  change (Prim2SF 1) with (S754_finite false 4503599627370496 (-52)).
  unfold SF64sub, SFsub.
  set (ez := Z.min (-52) e).
  rewrite !shl_align_value by (subst ez; lia).
  set (X := 2 ^ (- ez)).
  set (Y := 2 ^ (970 - ez)).
  assert (0 < X) as HX by (apply Z.pow_pos_nonneg; subst ez; lia).
  assert (X < Y) as HXY by (apply Z.pow_lt_mono_r; subst ez; lia).
  assert (4503599627370496 * 2 ^ (-52 - ez) = X) as ->.
  { change 4503599627370496 with (2 ^ 52). rewrite <- Z.pow_add_r by (subst ez; lia).
    subst X. f_equal. lia. }
  assert (Z.pos m * 2 ^ (e - ez) <= (2 ^ 53 - 1) * (2 * Y)) as Hb.
  { replace (2 * Y) with (2 ^ (971 - ez)).
    - apply Z.mul_le_mono_nonneg;
        [lia | lia | apply Z.pow_nonneg; lia | apply Z.pow_le_mono_r; subst ez; lia].
    - subst Y. replace (971 - ez) with (Z.succ (970 - ez)) by lia.
      rewrite Z.pow_succ_r by (subst ez; lia). reflexivity. }
  assert (0 < Z.pos m * 2 ^ (e - ez)) as Hbpos.
  { apply Z.mul_pos_pos; [lia|]. apply Z.pow_pos_nonneg; subst ez; lia. }
  set (b := Z.pos m * 2 ^ (e - ez)) in *.
  assert (ez <= 970) as Hez by (subst ez; lia).
  change (2 ^ 53) with 9007199254740992 in Hb.
  change (cond_Zopp false X) with X.
  set (z := (X - cond_Zopp s b)%Z).
  assert (z = X - cond_Zopp s b) as Ez by reflexivity.
  clearbody z. destruct z as [|p|p]; simpl binary_normalize.
  - exact I.
  - apply binary_round_no_overflow; [exact Hez|]. fold Y.
    change (2 ^ 54) with 18014398509481984.
    destruct s; simpl in Ez; lia.
  - apply binary_round_no_overflow; [exact Hez|]. fold Y.
    change (2 ^ 54) with 18014398509481984.
    destruct s; simpl in Ez; lia.
Qed.

Lemma sub_one_finite v : is_finite v = true -> is_finite (1 - v) = true.
Proof.
  rewrite !is_finite_Prim2SF, sub_spec. intros Hv.
  pose proof (Prim2SF_valid v) as Hval.
  destruct (Prim2SF v) as [s|s| |s m e]; try discriminate.
  - reflexivity.
  - pose proof (SFsub_one_finite s m e Hval) as H.
    destruct (SF64sub _ _); simpl in H; try contradiction; reflexivity.
Qed.

End Overflow.

End Binary64.

(** ** The store: what each function reads and writes *)

Section Store.

Implicit Types (h : heap) (df : DataFrame) (r : loc) (k : string) (s : Series).

Lemma getitem_some h r df k s :
  h !! r = Some df -> df !! k = Some s -> getitem r k h = (inr s, h).
Proof. intros Hr Hk. unfold getitem. now rewrite Hr, Hk. Qed.

Lemma getitem_none h r df k :
  h !! r = Some df -> df !! k = None -> getitem r k h = (inl (KeyError k), h).
Proof. intros Hr Hk. unfold getitem. now rewrite Hr, Hk. Qed.

Lemma getitem_dangling h r k : h !! r = None -> getitem r k h = (inl Dangling, h).
Proof. intros Hr. unfold getitem. now rewrite Hr. Qed.

Lemma setitem_some h r df k s :
  h !! r = Some df -> setitem r k s h = (inr tt, <[r := <[k := s]> df]> h).
Proof. intros Hr. unfold setitem. now rewrite Hr. Qed.

Lemma bind_getitem {B} h r df k s (f : Series -> M B) :
  h !! r = Some df -> df !! k = Some s -> bind (getitem r k) f h = f s h.
Proof. intros Hr Hk. unfold bind. now rewrite (getitem_some h r df k s). Qed.

Lemma bind_setitem {B} h r df k s (f : unit -> M B) :
  h !! r = Some df -> bind (setitem r k s) f h = f tt (<[r := <[k := s]> df]> h).
Proof. intros Hr. unfold bind. now rewrite (setitem_some h r df k s). Qed.

(** The heap never changes under a read. *)
Lemma getitem_heap h r k : snd (getitem r k h) = h.
Proof. unfold getitem. destruct (h !! r) as [df|]; [destruct (df !! k)|]; reflexivity. Qed.

Lemma iloc_heap h r k i : snd (iloc r k i h) = h.
Proof.
  unfold iloc, bind, getitem.
  destruct (h !! r) as [df|]; [destruct (df !! k) as [s|]|]; try reflexivity.
  destruct (Pandas.iloc_neg i s); reflexivity.
Qed.

Lemma iloc_some h r df k s i :
  h !! r = Some df -> df !! k = Some s ->
  iloc r k i h = (match Pandas.iloc_neg i s with inr x => inr x | inl e => inl e end, h).
Proof.
  intros Hr Hk. unfold iloc. rewrite (bind_getitem h r df k s) by assumption.
  destruct (Pandas.iloc_neg i s); reflexivity.
Qed.

(** [calcular_metricas] on a frame with a price column: it returns the
    reference it was given, and the object now carries [metricas]. *)
Lemma calcular_metricas_run h r df adj :
  h !! r = Some df -> df !! "Adj Close" = Some adj ->
  calcular_metricas r h = (inr r, <[r := metricas adj df]> h).
Proof.
  intros Hr Hadj. unfold calcular_metricas.
  rewrite (bind_getitem h r df _ adj) by assumption.
  rewrite (bind_setitem h r df) by assumption.
  repeat first
    [ erewrite bind_getitem by (first [ apply lookup_insert_eq | simplify_map_eq; reflexivity ])
    | erewrite bind_setitem by apply lookup_insert_eq ].
  unfold ret, metricas. f_equal.
  now rewrite !insert_insert_eq.
Qed.

End Store.

(** ** Reads leave the store alone *)

Section ReadOnly.

Lemma readonly_ret {A} (a : A) : readonly (ret a).
Proof. intros h. reflexivity. Qed.

Lemma readonly_raise {A} (e : exn) : readonly (@raise A e).
Proof. intros h. reflexivity. Qed.

Lemma readonly_lift {A} (x : exn + A) : readonly (lift x).
Proof. destruct x; [apply readonly_raise | apply readonly_ret]. Qed.

Lemma readonly_bind {A B} (m : M A) (k : A -> M B) :
  readonly m -> (forall a, readonly (k a)) -> readonly (bind m k).
Proof.
  intros Hm Hk h. unfold bind. specialize (Hm h).
  destruct (m h) as [[e|a] h']; simpl in Hm; subst h'; [reflexivity | apply Hk].
Qed.

Lemma readonly_getitem r k : readonly (getitem r k).
Proof. intros h. apply getitem_heap. Qed.

Lemma readonly_iloc r k i : readonly (iloc r k i).
Proof. intros h. apply iloc_heap. Qed.

Lemma readonly_analisar_tendencia r : readonly (analisar_tendencia r).
Proof.
  unfold analisar_tendencia.
  repeat first
    [ apply readonly_bind; [apply readonly_iloc | intros ?]
    | apply readonly_ret
    | match goal with |- readonly (if ?c then _ else _) => destruct c end ].
Qed.

Lemma readonly_calcular_projecao_crescimento r :
  readonly (calcular_projecao_crescimento r).
Proof.
  unfold calcular_projecao_crescimento.
  repeat first
    [ apply readonly_bind; [apply readonly_iloc | intros ?]
    | apply readonly_ret
    | match goal with |- readonly (if ?c then _ else _) => destruct c end ].
Qed.

Lemma readonly_recomendar_compra_e_projecao r :
  readonly (recomendar_compra_e_projecao r).
Proof.
  unfold recomendar_compra_e_projecao.
  apply readonly_bind; [apply readonly_iloc | intros ?].
  apply readonly_bind; [apply readonly_analisar_tendencia | intros ?].
  apply readonly_bind; [apply readonly_calcular_projecao_crescimento | intros ?].
  apply readonly_ret.
Qed.

End ReadOnly.

(** ** The columns after [calcular_metricas] *)

Section Metricas.

Implicit Types (df : DataFrame) (adj : Series) (k : string).

Lemma metricas_adj_close adj df :
  df !! "Adj Close" = Some adj -> metricas adj df !! "Adj Close" = Some adj.
Proof. intros H. unfold metricas. now rewrite !lookup_insert_ne by discriminate. Qed.

Lemma metricas_other adj df k :
  k ∉ derived_labels -> metricas adj df !! k = df !! k.
Proof.
  intros Hk. unfold metricas, derived_labels in *.
  rewrite !lookup_insert_ne; [reflexivity| | | | |];
    intros <-; apply Hk; set_solver.
Qed.

Lemma metricas_idem adj df : metricas adj (metricas adj df) = metricas adj df.
Proof.
  apply map_eq. intros k.
  destruct (decide (k ∈ derived_labels)) as [Hin|Hnot].
  - unfold derived_labels in Hin.
    repeat (apply elem_of_cons in Hin as [->|Hin]); [| | | | |now apply elem_of_nil in Hin];
      unfold metricas; now simplify_map_eq.
  - now rewrite !metricas_other.
Qed.

End Metricas.

(** ** Row counts of the pandas operations *)

Section Lengths.

Import Pandas.

Lemma length_ffill_from prev s : length (ffill_from prev s) = length s.
Proof. revert prev. induction s as [|x s IH]; intros prev; simpl; [|rewrite IH]; reflexivity. Qed.

Lemma length_removelast_cons (x : float) s : length (removelast (x :: s)) = length s.
Proof.
  revert x. induction s as [|y s IH]; intros x; [reflexivity|].
  change (removelast (x :: y :: s)) with (x :: removelast (y :: s)).
  change (length (x :: removelast (y :: s))) with (S (length (removelast (y :: s)))).
  now rewrite IH.
Qed.

Lemma length_shift s : length (shift s) = length s.
Proof.
  destruct s as [|x s]; [reflexivity|]. unfold shift.
  change (length (nan :: removelast (x :: s))) with (S (length (removelast (x :: s)))).
  now rewrite length_removelast_cons.
Qed.

Lemma length_zip_with2 f a b :
  length a = length b -> length (zip_with2 f a b) = length a.
Proof.
  revert b. induction a as [|x a IH]; intros [|y b] H; simpl in *; try lia.
  rewrite IH; lia.
Qed.

Lemma length_pct_change s : length (pct_change s) = length s.
Proof.
  unfold pct_change, ffill. rewrite length_zip_with2; rewrite ?length_shift;
    now rewrite ?length_ffill_from.
Qed.

Lemma length_np_cumprod_from acc s : length (np_cumprod_from acc s) = length s.
Proof. revert acc. induction s as [|x s IH]; intros acc; simpl; [|rewrite IH]; reflexivity. Qed.

Lemma length_mask_with mask s :
  length mask = length s -> length (mask_with mask s) = length s.
Proof.
  revert s. induction mask as [|m mask IH]; intros [|x s] H; simpl in *; try lia.
  rewrite IH; lia.
Qed.

Lemma length_cumprod s : length (cumprod s) = length s.
Proof.
  unfold cumprod. rewrite length_mask_with.
  - destruct s as [|x s]; [reflexivity|]. simpl. now rewrite length_np_cumprod_from, length_map.
  - destruct s as [|x s]; [reflexivity|]. simpl.
    now rewrite length_np_cumprod_from, !length_map.
Qed.

Lemma length_rolling W agg s : length (rolling W agg s) = length s.
Proof. unfold rolling. now rewrite length_map, length_seq. Qed.

Lemma length_rolling_mean W s : length (rolling_mean W s) = length s.
Proof. apply length_rolling. Qed.

Lemma length_rolling_std W s : length (rolling_std W s) = length s.
Proof. apply length_rolling. Qed.

Lemma rolling_lookup W agg s t :
  (t < length s)%nat -> rolling W agg s !! t = Some (agg (window W s t)).
Proof.
  intros Ht. unfold rolling.
  change (map ?f ?l) with (f <$> l). rewrite list_lookup_fmap.
  now rewrite lookup_seq_lt.
Qed.

Lemma length_window W s t :
  (t < length s)%nat -> length (window W s t) = Nat.min (S t) W.
Proof. intros Ht. unfold window. rewrite length_drop, length_take. lia. Qed.

End Lengths.

(** * The claims *)

(** ** Metric Deriver: no validation, in-place update *)

Lemma metricas_derived adj df k :
  k ∈ derived_labels ->
  exists col, metricas adj df !! k = Some col /\ length col = length adj.
Proof.
  intros Hin. unfold derived_labels in Hin.
  repeat (apply elem_of_cons in Hin as [->|Hin]); [| | | | |now apply elem_of_nil in Hin];
    unfold metricas; eexists; (split; [now simplify_map_eq|]);
    rewrite ?length_map, ?length_cumprod, ?length_map, ?length_rolling_mean,
      ?length_rolling_std, ?length_pct_change;
    reflexivity.
Qed.

(** C8, as the code has it: [calcular_metricas] validates nothing.  On
    every frame with a price column, whatever the prices are (none,
    zero, negative, NaN), it raises no error and returns the frame with
    the five derived columns, each with one cell per input row. *)
Theorem calcular_metricas_never_fails (h : heap) (r : loc) (df : DataFrame) (adj : Series) :
  h !! r = Some df -> df !! "Adj Close" = Some adj ->
  exists df',
    calcular_metricas r h = (inr r, <[r := df']> h) /\
    forall k, k ∈ derived_labels ->
      exists col, df' !! k = Some col /\ length col = length adj.
Proof.
  intros Hr Hadj. exists (metricas adj df). split.
  - now apply calcular_metricas_run.
  - intros k Hk. now apply metricas_derived.
Qed.

Lemma calcular_metricas_never_fails_witness :
  exists df',
    calcular_metricas 1 (store_of (frame_of [-1; 0; nan])) =
      (inr 1%positive, <[1%positive := df']> (store_of (frame_of [-1; 0; nan]))) /\
    forall k, k ∈ derived_labels ->
      exists col, df' !! k = Some col /\ length col = length [-1; 0; nan].
Proof.
  apply (calcular_metricas_never_fails _ 1%positive (frame_of [-1; 0; nan])); reflexivity.
Defined.

(** C8 as stated fails: an empty price series and one with a negative,
    a zero and a NaN price both come back as frames, not as errors. *)
Lemma calcular_metricas_no_DataError :
  fst (calcular_metricas 1 (store_of (frame_of []))) = inr 1%positive /\
  fst (calcular_metricas 1 (store_of (frame_of [-1; 0; nan]))) = inr 1%positive /\
  ~ (exists e, fst (calcular_metricas 1 (store_of (frame_of []))) = inl e) /\
  ~ (exists e, fst (calcular_metricas 1 (store_of (frame_of [-1; 0; nan]))) = inl e).
Proof.
  assert (fst (calcular_metricas 1 (store_of (frame_of []))) = inr 1%positive) as H1
    by (erewrite calcular_metricas_run by reflexivity; reflexivity).
  assert (fst (calcular_metricas 1 (store_of (frame_of [-1; 0; nan]))) = inr 1%positive) as H2
    by (erewrite calcular_metricas_run by reflexivity; reflexivity).
  repeat split; try assumption; intros [e He]; congruence.
Qed.

(** C9, as the code has it: [calcular_metricas] writes into the object
    it was given and returns that same reference; there is no copy.
    After the call the caller's frame carries the five derived columns;
    its price column, every column with another label and every other
    object of the store are as before. *)
Theorem calcular_metricas_in_place (h : heap) (r : loc) (df : DataFrame) (adj : Series) :
  h !! r = Some df -> df !! "Adj Close" = Some adj ->
  exists h' df',
    calcular_metricas r h = (inr r, h') /\
    h' !! r = Some df' /\
    (forall k, k ∈ derived_labels -> is_Some (df' !! k)) /\
    df' !! "Adj Close" = Some adj /\
    (forall k, k ∉ derived_labels -> df' !! k = df !! k) /\
    (forall r', r' <> r -> h' !! r' = h !! r').
Proof.
  intros Hr Hadj. exists (<[r := metricas adj df]> h), (metricas adj df).
  split; [now apply calcular_metricas_run|].
  split; [apply lookup_insert_eq|].
  split.
  { intros k Hk. destruct (metricas_derived adj df k Hk) as (col & Hcol & _). eauto. }
  split; [now apply metricas_adj_close|].
  split; [intros k Hk; now apply metricas_other|].
  intros r' Hne. now apply lookup_insert_ne.
Qed.

Lemma calcular_metricas_in_place_witness :
  exists h' df',
    calcular_metricas 1 (store_of (frame_of precos_10)) = (inr 1%positive, h') /\
    h' !! 1%positive = Some df' /\
    (forall k, k ∈ derived_labels -> is_Some (df' !! k)) /\
    df' !! "Adj Close" = Some precos_10 /\
    (forall k, k ∉ derived_labels -> df' !! k = frame_of precos_10 !! k) /\
    (forall r', r' <> 1%positive -> h' !! r' = store_of (frame_of precos_10) !! r').
Proof.
  apply (calcular_metricas_in_place _ 1%positive (frame_of precos_10)); reflexivity.
Defined.

(** C9 as stated fails: after the call the caller's own object holds a
    column it did not hold before, and the reference returned is the
    caller's. *)
Lemma calcular_metricas_mutates_input :
  let h := store_of (frame_of precos_10) in
  fst (calcular_metricas 1 h) = inr 1%positive /\
  column h 1 "Media_Movel_50" = None /\
  column (snd (calcular_metricas 1 h)) 1 "Media_Movel_50"
    = Some (Pandas.rolling_mean 50 precos_10) /\
  snd (calcular_metricas 1 h) !! 1%positive <> h !! 1%positive.
Proof.
  intros h.
  assert (calcular_metricas 1 h = (inr 1%positive, <[1%positive := metricas precos_10 (frame_of precos_10)]> h)) as E
    by (apply calcular_metricas_run; reflexivity).
  rewrite E. cbn [fst snd].
  assert (column h 1 "Media_Movel_50" = None) as Hbefore by reflexivity.
  assert (column (<[1%positive := metricas precos_10 (frame_of precos_10)]> h) 1 "Media_Movel_50"
          = Some (Pandas.rolling_mean 50 precos_10)) as Hafter.
  { unfold column. rewrite lookup_insert_eq. unfold metricas. now simplify_map_eq. }
  split; [reflexivity|]. split; [exact Hbefore|]. split; [exact Hafter|].
  intros Heq. unfold column in Hbefore, Hafter. rewrite Heq, Hbefore in Hafter.
  discriminate Hafter.
Qed.

(** ** Idempotence *)

(** C10: running the analysis of one instrument again on the frame it
    has already processed gives the same value (the latest price, the
    trend triple, the projection, or the same exception) and leaves the
    same store, so the same metric columns: the second run recomputes
    every column from the untouched price column. *)
Theorem pipeline_idempotent (r : loc) (h : heap) :
  pipeline r (snd (pipeline r h)) = pipeline r h.
Proof.
  unfold pipeline at 1 3.
  destruct (h !! r) as [df|] eqn:Hr.
  - destruct (df !! "Adj Close") as [adj|] eqn:Hadj.
    + set (h1 := <[r := metricas adj df]> h).
      assert (pipeline r h = recomendar_compra_e_projecao r h1) as E.
      { unfold pipeline, bind. now rewrite (calcular_metricas_run h r df adj). }
      rewrite E, readonly_recomendar_compra_e_projecao.
      unfold bind.
      rewrite (calcular_metricas_run h1 r (metricas adj df) adj);
        [|apply lookup_insert_eq|now apply metricas_adj_close].
      rewrite metricas_idem. subst h1. now rewrite insert_insert_eq.
    + assert (pipeline r h = (inl (KeyError "Adj Close"), h)) as E.
      { unfold pipeline, calcular_metricas, bind.
        now rewrite (getitem_none h r df). }
      rewrite E. cbn [snd]. unfold bind, calcular_metricas, bind.
      now rewrite (getitem_none h r df).
  - assert (pipeline r h = (inl Dangling, h)) as E.
    { unfold pipeline, calcular_metricas, bind. now rewrite getitem_dangling. }
    rewrite E. cbn [snd]. unfold bind, calcular_metricas, bind.
    now rewrite getitem_dangling.
Qed.

(** ** Running the classifier and the projector on given columns *)

Section Readers.

Implicit Types (h : heap) (df : DataFrame) (r : loc) (k : string) (s : Series).

Lemma bind_iloc {B} h r df k s i x (f : float -> M B) :
  h !! r = Some df -> df !! k = Some s -> Pandas.iloc_neg i s = inr x ->
  bind (iloc r k i) f h = f x h.
Proof.
  intros Hr Hk Hi. unfold bind. rewrite (iloc_some h r df k s) by assumption.
  now rewrite Hi.
Qed.

Lemma analisar_tendencia_run h r df s50 s200 a b :
  h !! r = Some df ->
  df !! "Media_Movel_50" = Some s50 -> df !! "Media_Movel_200" = Some s200 ->
  Pandas.iloc_neg 1 s50 = inr a -> Pandas.iloc_neg 1 s200 = inr b ->
  analisar_tendencia r h =
    (inr (if b <? a then ("Crescimento"%string, seta_cima, (a / b - 1) * 100)
          else ("Queda"%string, seta_baixo, (1 - a / b) * 100)), h).
Proof.
  intros Hr H50 H200 Ha Hb. unfold analisar_tendencia.
  rewrite (bind_iloc h r df _ s50 1 a) by assumption.
  rewrite (bind_iloc h r df _ s200 1 b) by assumption.
  destruct (b <? a);
    rewrite (bind_iloc h r df _ s50 1 a) by assumption;
    rewrite (bind_iloc h r df _ s200 1 b) by assumption; reflexivity.
Qed.

Lemma calcular_projecao_crescimento_run h r df s50 vol a b v :
  h !! r = Some df ->
  df !! "Media_Movel_50" = Some s50 -> df !! "Volatilidade" = Some vol ->
  Pandas.iloc_neg 1 s50 = inr a -> Pandas.iloc_neg 5 s50 = inr b ->
  Pandas.iloc_neg 1 vol = inr v ->
  calcular_projecao_crescimento r h =
    (inr (if (a - b) / 5 * (1 - v) <? 0 then PyInt 0
          else PyFloat ((a - b) / 5 * (1 - v) * 100)), h).
Proof.
  intros Hr H50 Hvol Ha Hb Hv. unfold calcular_projecao_crescimento.
  rewrite (bind_iloc h r df _ s50 1 a) by assumption.
  rewrite (bind_iloc h r df _ s50 5 b) by assumption.
  rewrite (bind_iloc h r df _ vol 1 v) by assumption.
  destruct (_ <? 0); reflexivity.
Qed.

(** [iloc[-5]] is the row four places before the last one. *)
Lemma iloc_neg_5_last4 s x0 x1 x2 x3 x4 :
  Pandas.iloc_neg 5 (s ++ [x0; x1; x2; x3; x4]) = inr x0.
Proof.
  unfold Pandas.iloc_neg. rewrite length_app. cbn [length].
  replace (5 <=? length s + 5)%nat with true by (symmetry; apply Nat.leb_le; lia).
  replace (length s + 5 - 5)%nat with (length s) by lia.
  cbn [andb Nat.leb]. rewrite lookup_app_r by lia.
  now replace (length s - length s)%nat with 0%nat by lia.
Qed.

Lemma iloc_neg_1_last s x : Pandas.iloc_neg 1 (s ++ [x]) = inr x.
Proof.
  unfold Pandas.iloc_neg. rewrite length_app. cbn [length].
  replace (1 <=? length s + 1)%nat with true by (symmetry; apply Nat.leb_le; lia).
  replace (length s + 1 - 1)%nat with (length s) by lia.
  cbn [andb Nat.leb]. rewrite lookup_app_r by lia.
  now replace (length s - length s)%nat with 0%nat by lia.
Qed.

Lemma iloc_neg_short (i : nat) s :
  (length s < i)%nat -> Pandas.iloc_neg i s = inl IndexError.
Proof.
  intros Hlt. unfold Pandas.iloc_neg.
  replace (i <=? length s)%nat with false by (symmetry; apply Nat.leb_gt; lia).
  now rewrite andb_false_r.
Qed.

Lemma bind_iloc_short {B} h r df k s i (f : float -> M B) :
  h !! r = Some df -> df !! k = Some s -> (length s < i)%nat ->
  bind (iloc r k i) f h = (inl IndexError, h).
Proof.
  intros Hr Hk Hi. unfold bind. rewrite (iloc_some h r df k s) by assumption.
  now rewrite iloc_neg_short.
Qed.

(** A frame with fewer than five rows: the projector's [iloc[-5]] (or,
    on an empty frame, already its [iloc[-1]]) raises [IndexError]. *)
Lemma calcular_projecao_crescimento_short h r df s50 :
  h !! r = Some df -> df !! "Media_Movel_50" = Some s50 -> (length s50 < 5)%nat ->
  calcular_projecao_crescimento r h = (inl IndexError, h).
Proof.
  intros Hr H50 Hlen. unfold calcular_projecao_crescimento.
  destruct (Pandas.iloc_neg 1 s50) as [e|a] eqn:Ha.
  - unfold bind at 1. rewrite (iloc_some h r df _ s50) by assumption. rewrite Ha.
    unfold Pandas.iloc_neg in Ha.
    destruct ((1 <=? 1)%nat && (1 <=? length s50)%nat); [|now injection Ha as <-].
    destruct (s50 !! _); [discriminate|now injection Ha as <-].
  - rewrite (bind_iloc h r df _ s50 1 a) by assumption.
    now rewrite (bind_iloc_short h r df _ s50 5).
Qed.

End Readers.

(** ** Trend Classifier *)

(** C1, as the code computes it.  With both averages defined at the
    latest row, the result is Growth ("Crescimento") with magnitude
    [(MA50/MA200 - 1) * 100] when MA50 > MA200 and Decline ("Queda") with
    magnitude [(1 - MA50/MA200) * 100] otherwise, every step in binary64.
    A tie of finite non-zero averages is Decline with magnitude exactly
    0.  MA50 = 110 over MA200 = 100 is Growth with magnitude
    10.000000000000009, and MA50 = 90 over MA200 = 100 is Decline with
    magnitude 9.999999999999998: 10.0 only up to rounding. *)
Theorem analisar_tendencia_classifies
  (h : heap) (r : loc) (df : DataFrame) (s50 s200 : Series) (a b : float) :
  h !! r = Some df ->
  df !! "Media_Movel_50" = Some s50 -> df !! "Media_Movel_200" = Some s200 ->
  Pandas.iloc_neg 1 s50 = inr a -> Pandas.iloc_neg 1 s200 = inr b ->
  is_nan a = false -> is_nan b = false ->
  analisar_tendencia r h =
    (inr (if b <? a then ("Crescimento"%string, seta_cima, (a / b - 1) * 100)
          else ("Queda"%string, seta_baixo, (1 - a / b) * 100)), h) /\
  (a = b -> is_finite a = true -> (a =? 0) = false ->
   analisar_tendencia r h = (inr ("Queda"%string, seta_baixo, 0), h)) /\
  (a = 110 -> b = 100 ->
   analisar_tendencia r h = (inr ("Crescimento"%string, seta_cima, dez_por_cima), h)) /\
  (a = 90 -> b = 100 ->
   analisar_tendencia r h = (inr ("Queda"%string, seta_baixo, dez_por_baixo), h)).
Proof.
  intros Hr H50 H200 Ha Hb _ _.
  pose proof (analisar_tendencia_run h r df s50 s200 a b Hr H50 H200 Ha Hb) as Hrun.
  split; [exact Hrun|]. split; [|split].
  - intros <- Hfin Hnz. rewrite Hrun, Binary64.ltb_irrefl, Binary64.div_self by assumption.
    reflexivity.
  - intros -> ->. rewrite Hrun. reflexivity.
  - intros -> ->. rewrite Hrun. reflexivity.
Qed.

Lemma analisar_tendencia_classifies_witness :
  let h := store_of (frame_medias [105; 110] [99; 100] [0.5; 0.5]) in
  analisar_tendencia 1 h =
    (inr (if 100 <? 110 then ("Crescimento"%string, seta_cima, (110 / 100 - 1) * 100)
          else ("Queda"%string, seta_baixo, (1 - 110 / 100) * 100)), h) /\
  (110 = 100 -> is_finite 110 = true -> (110 =? 0) = false ->
   analisar_tendencia 1 h = (inr ("Queda"%string, seta_baixo, 0), h)) /\
  (110 = 110 -> 100 = 100 ->
   analisar_tendencia 1 h = (inr ("Crescimento"%string, seta_cima, dez_por_cima), h)) /\
  (110 = 90 -> 100 = 100 ->
   analisar_tendencia 1 h = (inr ("Queda"%string, seta_baixo, dez_por_baixo), h)).
Proof.
  intros h.
  apply (analisar_tendencia_classifies h 1%positive
           (frame_medias [105; 110] [99; 100] [0.5; 0.5]) [105; 110] [99; 100]);
    reflexivity.
Defined.

(** C1 as stated fails on the worked example: for MA50 = 110 and
    MA200 = 100 the magnitude returned is not the number 10.  A tie is
    not always magnitude 0 either: with both averages 0 the quotient is
    0/0 and the magnitude is NaN. *)
Lemma analisar_tendencia_magnitude_not_as_stated :
  let h := store_of (frame_medias [105; 110] [99; 100] [0.5; 0.5]) in
  let h0 := store_of (frame_medias [0; 0] [0; 0] [0; 0]) in
  fst (analisar_tendencia 1 h) = inr ("Crescimento"%string, seta_cima, dez_por_cima) /\
  (dez_por_cima =? 10) = false /\
  fst (analisar_tendencia 1 h) <> inr ("Crescimento"%string, seta_cima, 10) /\
  fst (analisar_tendencia 1 h0) = inr ("Queda"%string, seta_baixo, nan).
Proof.
  intros h h0.
  assert (fst (analisar_tendencia 1 h) = inr ("Crescimento"%string, seta_cima, dez_por_cima)) as E
    by reflexivity.
  split; [exact E|]. split; [reflexivity|]. split; [|reflexivity].
  rewrite E. intros Heq.
  apply (f_equal (fun x : exn + string * string * float =>
                    match x with inr (_, _, m) => m =? 10 | inl _ => true end)) in Heq.
  vm_compute in Heq. discriminate Heq.
Qed.

(** C6, as the code has it: there is no "indeterminate" outcome.  When
    either average is undefined (NaN) at the latest row, the comparison
    is false, so the classifier returns the Decline label ("Queda") with
    an undefined (NaN) magnitude, and raises nothing. *)
Theorem analisar_tendencia_undefined_is_queda
  (h : heap) (r : loc) (df : DataFrame) (s50 s200 : Series) (a b : float) :
  h !! r = Some df ->
  df !! "Media_Movel_50" = Some s50 -> df !! "Media_Movel_200" = Some s200 ->
  Pandas.iloc_neg 1 s50 = inr a -> Pandas.iloc_neg 1 s200 = inr b ->
  is_nan a = true \/ is_nan b = true ->
  analisar_tendencia r h = (inr ("Queda"%string, seta_baixo, nan), h).
Proof.
  intros Hr H50 H200 Ha Hb Hnan.
  rewrite (analisar_tendencia_run h r df s50 s200 a b) by assumption.
  destruct Hnan as [Hn|Hn]; apply Binary64.is_nan_true in Hn; subst.
  - now rewrite Binary64.ltb_nan_r, Binary64.div_nan_l, Binary64.sub_nan_r, Binary64.mul_nan_l.
  - now rewrite Binary64.ltb_nan_l, Binary64.div_nan_r, Binary64.sub_nan_r, Binary64.mul_nan_l.
Qed.

Lemma analisar_tendencia_undefined_is_queda_witness :
  analisar_tendencia 1 (store_of (frame_medias [100; 101] [nan; nan] [nan; nan])) =
    (inr ("Queda"%string, seta_baixo, nan),
     store_of (frame_medias [100; 101] [nan; nan] [nan; nan])).
Proof.
  apply (analisar_tendencia_undefined_is_queda _ 1%positive
           (frame_medias [100; 101] [nan; nan] [nan; nan]) [100; 101] [nan; nan] 101 nan);
    try reflexivity.
  right. reflexivity.
Defined.

(** C6 as stated fails: on the metrics of a ten-day price series both
    averages are undefined at the latest row, and the classifier returns
    the Decline label instead of failing. *)
Lemma analisar_tendencia_no_indeterminate :
  let h := snd (calcular_metricas 1 (store_of (frame_of precos_10))) in
  latest h 1 "Media_Movel_50" = Some nan /\
  latest h 1 "Media_Movel_200" = Some nan /\
  fst (analisar_tendencia 1 h) = inr ("Queda"%string, seta_baixo, nan) /\
  ~ (exists e, fst (analisar_tendencia 1 h) = inl e).
Proof.
  intros h.
  assert (fst (analisar_tendencia 1 h) = inr ("Queda"%string, seta_baixo, nan)) as E
    by (vm_compute; reflexivity).
  split; [vm_compute; reflexivity|]. split; [vm_compute; reflexivity|].
  split; [exact E|]. intros [e He]. rewrite E in He. discriminate He.
Qed.

(** ** Growth Projector *)

(** C7, as the code has it: there is no "indeterminate" outcome.  When
    the latest 50-day average, the earlier 50-day average the projector
    reads, or the latest volatility is undefined (NaN), the projector
    returns an undefined (NaN) percentage, and raises nothing. *)
Theorem calcular_projecao_undefined_is_nan
  (h : heap) (r : loc) (df : DataFrame) (s50 vol : Series) (a b v : float) :
  h !! r = Some df ->
  df !! "Media_Movel_50" = Some s50 -> df !! "Volatilidade" = Some vol ->
  Pandas.iloc_neg 1 s50 = inr a -> Pandas.iloc_neg 5 s50 = inr b ->
  Pandas.iloc_neg 1 vol = inr v ->
  is_nan a = true \/ is_nan b = true \/ is_nan v = true ->
  calcular_projecao_crescimento r h = (inr (PyFloat nan), h).
Proof.
  intros Hr H50 Hvol Ha Hb Hv Hnan.
  rewrite (calcular_projecao_crescimento_run h r df s50 vol a b v) by assumption.
  assert ((a - b) / 5 * (1 - v) = nan) as ->.
  { destruct Hnan as [Hn|[Hn|Hn]]; apply Binary64.is_nan_true in Hn; subst.
    - now rewrite Binary64.sub_nan_l, Binary64.div_nan_l, Binary64.mul_nan_l.
    - now rewrite Binary64.sub_nan_r, Binary64.div_nan_l, Binary64.mul_nan_l.
    - now rewrite Binary64.sub_nan_r, Binary64.mul_nan_r. }
  reflexivity.
Qed.

Lemma calcular_projecao_undefined_is_nan_witness :
  calcular_projecao_crescimento 1
    (store_of (frame_medias [1; 2; 3; 4; 5; 6] [nan] [0; 0; 0; 0; 0; nan])) =
    (inr (PyFloat nan),
     store_of (frame_medias [1; 2; 3; 4; 5; 6] [nan] [0; 0; 0; 0; 0; nan])).
Proof.
  apply (calcular_projecao_undefined_is_nan _ 1%positive
           (frame_medias [1; 2; 3; 4; 5; 6] [nan] [0; 0; 0; 0; 0; nan])
           [1; 2; 3; 4; 5; 6] [0; 0; 0; 0; 0; nan] 6 2 nan);
    try reflexivity.
  right. right. reflexivity.
Defined.

(** C7 as stated fails: on the metrics of a ten-day price series all
    three values are undefined, and the projector returns the number NaN
    instead of failing. *)
Lemma calcular_projecao_no_indeterminate :
  let h := snd (calcular_metricas 1 (store_of (frame_of precos_10))) in
  fst (calcular_projecao_crescimento 1 h) = inr (PyFloat nan) /\
  ~ (exists e, fst (calcular_projecao_crescimento 1 h) = inl e).
Proof.
  intros h.
  assert (fst (calcular_projecao_crescimento 1 h) = inr (PyFloat nan)) as E
    by (vm_compute; reflexivity).
  split; [exact E|]. intros [e He]. rewrite E in He. discriminate He.
Qed.

(** C2: with a finite momentum term and a finite latest volatility the
    projected percentage is never below zero, and it is exactly the
    integer 0 whenever [momentum * (1 - volatility)] is negative. *)
Theorem calcular_projecao_nonneg
  (h : heap) (r : loc) (df : DataFrame) (s50 vol : Series) (a b v : float) :
  h !! r = Some df ->
  df !! "Media_Movel_50" = Some s50 -> df !! "Volatilidade" = Some vol ->
  Pandas.iloc_neg 1 s50 = inr a -> Pandas.iloc_neg 5 s50 = inr b ->
  Pandas.iloc_neg 1 vol = inr v ->
  is_finite ((a - b) / 5) = true -> is_finite v = true ->
  exists out,
    calcular_projecao_crescimento r h = (inr out, h) /\
    pynum_nonneg out = true /\
    (((a - b) / 5 * (1 - v) <? 0) = true -> out = PyInt 0).
Proof.
  intros Hr H50 Hvol Ha Hb Hv Hmom Hfin.
  rewrite (calcular_projecao_crescimento_run h r df s50 vol a b v) by assumption.
  destruct ((a - b) / 5 * (1 - v) <? 0) eqn:Hneg.
  - exists (PyInt 0). repeat split.
  - eexists. split; [reflexivity|]. split; [|discriminate].
    apply Binary64.mul_100_nonneg; [|exact Hneg].
    apply Binary64.mul_finite_not_nan; [exact Hmom|].
    now apply Binary64.sub_one_finite.
Qed.

Lemma calcular_projecao_nonneg_witness :
  let h := store_of (frame_medias [5; 25; 20; 15; 10; 0] [0] [vol_02; vol_02]) in
  exists out,
    calcular_projecao_crescimento 1 h = (inr out, h) /\
    pynum_nonneg out = true /\
    (((0 - 25) / 5 * (1 - vol_02) <? 0) = true -> out = PyInt 0).
Proof.
  intros h.
  apply (calcular_projecao_nonneg h 1%positive
           (frame_medias [5; 25; 20; 15; 10; 0] [0] [vol_02; vol_02])
           [5; 25; 20; 15; 10; 0] [vol_02; vol_02]);
    reflexivity.
Defined.

(** C4: the code's momentum term.  [iloc[-5]] is the row four periods
    before the latest, so the term is (MA50 at the latest row minus MA50
    four rows earlier) over 5, not the difference over five periods that
    the divisor 5 and the claim call for.  On a 50-day average ending
    10, 20, 30, 40, 50, 60 with volatility 0 the code reads 20 and
    returns (60 - 20) / 5 * 100 = 800; the value five periods before
    the latest is 10, which would give 1000. *)
Theorem momento_crescimento_reads_fourth_row :
  let s50 := [10; 20; 30; 40; 50; 60] in
  let h := store_of (frame_medias s50 [0] [0; 0; 0; 0; 0; 0]) in
  Pandas.iloc_neg 1 s50 = inr 60 /\
  Pandas.iloc_neg 5 s50 = inr 20 /\
  Pandas.iloc_neg 6 s50 = inr 10 /\
  fst (calcular_projecao_crescimento 1 h) = inr (PyFloat ((60 - 20) / 5 * (1 - 0) * 100)) /\
  (60 - 20) / 5 * (1 - 0) * 100 = 800 /\
  (60 - 10) / 5 * (1 - 0) * 100 = 1000 /\
  fst (calcular_projecao_crescimento 1 h) <> inr (PyFloat ((60 - 10) / 5 * (1 - 0) * 100)).
Proof.
  intros s50 h.
  assert (fst (calcular_projecao_crescimento 1 h) = inr (PyFloat 800)) as E
    by (vm_compute; reflexivity).
  repeat (split; [reflexivity|]).
  rewrite E. intros Heq.
  apply (f_equal (fun x : exn + pynum =>
                    match x with inr (PyFloat m) => m =? 800 | _ => false end)) in Heq.
  vm_compute in Heq. discriminate Heq.
Qed.

(** In general the earlier row read is the first of the last five. *)
Lemma momento_crescimento_last_five
  (h : heap) (r : loc) (df : DataFrame) (s vol : Series) (x0 x1 x2 x3 x4 v : float) :
  h !! r = Some df ->
  df !! "Media_Movel_50" = Some (s ++ [x0; x1; x2; x3; x4]) ->
  df !! "Volatilidade" = Some vol -> Pandas.iloc_neg 1 vol = inr v ->
  calcular_projecao_crescimento r h =
    (inr (if (x4 - x0) / 5 * (1 - v) <? 0 then PyInt 0
          else PyFloat ((x4 - x0) / 5 * (1 - v) * 100)), h).
Proof.
  intros Hr H50 Hvol Hv.
  apply (calcular_projecao_crescimento_run h r df _ vol x4 x0 v Hr H50 Hvol); try assumption.
  - change (s ++ [x0; x1; x2; x3; x4]) with (s ++ [x0; x1; x2; x3] ++ [x4]).
    rewrite app_assoc. apply iloc_neg_1_last.
  - apply iloc_neg_5_last4.
Qed.

(** ** Metric Deriver: cumulative return *)

Section CumulativeReturn.

Import Pandas.

(** The daily return of the first row is undefined. *)
Lemma pct_change_head p0 ps :
  pct_change (p0 :: ps) = nan :: tl (pct_change (p0 :: ps)).
Proof.
  unfold pct_change, ffill. cbn [ffill_from shift zip_with2 tl].
  now rewrite Binary64.div_nan_r, Binary64.sub_nan_l.
Qed.

(** A missing first cell enters the running product as the factor 1 and
    comes out missing. *)
Lemma cumprod_nan_head g :
  cumprod (nan :: g) =
    nan :: mask_with (map isna g)
             (np_cumprod_from 1 (map (fun x => if isna x then 1 else x) g)).
Proof. reflexivity. Qed.

Lemma retorno_acumulado_head p0 ps :
  map (fun x => x - 1) (cumprod (map (fun x => 1 + x) (pct_change (p0 :: ps)))) =
    nan :: map (fun x => x - 1)
             (let g := map (fun x => 1 + x) (tl (pct_change (p0 :: ps))) in
              mask_with (map isna g)
                (np_cumprod_from 1 (map (fun x => if isna x then 1 else x) g))).
Proof.
  rewrite pct_change_head at 1. cbn [map].
  change (1 + nan) with nan. rewrite cumprod_nan_head. reflexivity.
Qed.

End CumulativeReturn.

(** C3, as the code computes it: the cumulative return at the first
    date is undefined (NaN), not 0.  The undefined first daily return
    does enter the running product as the factor 1: from the second
    date on the column is the running product, started at 1, of
    [1 + return], minus 1. *)
Theorem retorno_acumulado_first_undefined
  (h : heap) (r : loc) (df : DataFrame) (p0 : float) (ps : Series) :
  h !! r = Some df -> df !! "Adj Close" = Some (p0 :: ps) ->
  exists h' cum,
    calcular_metricas r h = (inr r, h') /\
    column h' r "Retorno_Acumulado" = Some cum /\
    cum !! 0%nat = Some nan /\
    cum = nan :: map (fun x => x - 1)
                   (let g := map (fun x => 1 + x) (tl (Pandas.pct_change (p0 :: ps))) in
                    Pandas.mask_with (map Pandas.isna g)
                      (Pandas.np_cumprod_from 1
                         (map (fun x => if Pandas.isna x then 1 else x) g))).
Proof.
  intros Hr Hadj.
  exists (<[r := metricas (p0 :: ps) df]> h).
  exists (map (fun x => x - 1)
            (Pandas.cumprod (map (fun x => 1 + x) (Pandas.pct_change (p0 :: ps))))).
  split; [now apply calcular_metricas_run|].
  split.
  { unfold column. rewrite lookup_insert_eq. unfold metricas. now simplify_map_eq. }
  rewrite retorno_acumulado_head. split; reflexivity.
Qed.

Lemma retorno_acumulado_first_undefined_witness :
  exists h' cum,
    calcular_metricas 1 (store_of (frame_of precos_10)) = (inr 1%positive, h') /\
    column h' 1 "Retorno_Acumulado" = Some cum /\
    cum !! 0%nat = Some nan /\
    cum = nan :: map (fun x => x - 1)
                   (let g := map (fun x => 1 + x) (tl (Pandas.pct_change precos_10)) in
                    Pandas.mask_with (map Pandas.isna g)
                      (Pandas.np_cumprod_from 1
                         (map (fun x => if Pandas.isna x then 1 else x) g))).
Proof.
  apply (retorno_acumulado_first_undefined _ 1%positive (frame_of precos_10) 100
           [101; 102; 103; 104; 105; 106; 107; 108; 109]); reflexivity.
Defined.

(** C3 as stated fails: for the prices 100, 110 the cumulative return at
    the first date is NaN, which is not 0 (and compares unequal to it). *)
Lemma retorno_acumulado_first_not_zero :
  let h := snd (calcular_metricas 1 (store_of (frame_of [100; 110]))) in
  (column h 1 "Retorno_Acumulado") ≫= head = Some nan /\
  (nan =? 0) = false /\
  (column h 1 "Retorno_Acumulado") ≫= head <> Some 0.
Proof.
  intros h.
  assert ((column h 1 "Retorno_Acumulado") ≫= head = Some nan) as E
    by (vm_compute; reflexivity).
  split; [exact E|]. split; [reflexivity|].
  rewrite E. intros Heq.
  apply (f_equal (fun x : option float =>
                    match x with Some m => is_nan m | None => false end)) in Heq.
  vm_compute in Heq. discriminate Heq.
Qed.

(** ** Metric Deriver: the 50-period moving average *)

Section MovingAverage.

Import Pandas.




Lemma length_filter_le (f : float -> bool) w : (length (List.filter f w) <= length w)%nat.
Proof. induction w as [|x w IH]; simpl; [lia|]. destruct (f x); simpl; lia. Qed.


(** A window with fewer rows than [minp] has no mean. *)
Lemma roll_mean_short minp w : (length w < minp)%nat -> roll_mean minp w = nan.
Proof.
  intros Hlt. unfold roll_mean.
  pose proof (length_filter_le notna w) as Hle.
  replace (minp <=? length (List.filter notna w))%nat with false; [reflexivity|].
  symmetry. apply Nat.leb_gt. lia.
Qed.





End MovingAverage.




(** * Further properties of the code *)

(** ** Metric Deriver: the remaining columns *)

Section DailyReturn.

Import Pandas.

Lemma removelast_lookup (s : Series) t :
  (S t < length s)%nat -> removelast s !! t = s !! t.
Proof.
  revert t. induction s as [|x s IH]; intros t Ht; [simpl in Ht; lia|].
  destruct s as [|y s]; [simpl in Ht; lia|].
  change (removelast (x :: y :: s)) with (x :: removelast (y :: s)).
  destruct t as [|t]; [reflexivity|].
  cbn [lookup list_lookup]. apply IH. simpl in *. lia.
Qed.

Lemma zip_with2_lookup f a b t x y :
  a !! t = Some x -> b !! t = Some y -> zip_with2 f a b !! t = Some (f x y).
Proof.
  revert b t. induction a as [|x0 a IH]; intros [|y0 b] t Ha Hb; try discriminate.
  destruct t as [|t]; cbn in *; [congruence|]. now apply IH.
Qed.

Lemma pct_change_lookup_succ s t p q :
  forallb notna s = true -> s !! t = Some p -> s !! S t = Some q ->
  pct_change s !! S t = Some (q / p - 1).
Proof.
  intros Hs Hp Hq. unfold pct_change. rewrite (ffill_notna s Hs).
  apply (zip_with2_lookup (fun x y => x / y - 1) s (shift s) (S t) q p); [exact Hq|].
  destruct s as [|x s]; [discriminate|]. unfold shift.
  change ((nan :: removelast (x :: s)) !! S t) with (removelast (x :: s) !! t).
  rewrite removelast_lookup; [exact Hp|].
  apply lookup_lt_Some in Hq. exact Hq.
Qed.

End DailyReturn.

(** X1.  On a price column without missing cells, the daily return is
    undefined at the first row and, at every later row, the price over
    the price of the row before, minus 1, in binary64. *)
Theorem retorno_diario_is_price_ratio
  (h : heap) (r : loc) (df : DataFrame) (adj : Series) :
  h !! r = Some df -> df !! "Adj Close" = Some adj ->
  forallb Pandas.notna adj = true ->
  exists h' rd,
    calcular_metricas r h = (inr r, h') /\
    column h' r "Retorno_Diario" = Some rd /\
    length rd = length adj /\
    (forall p, adj !! 0%nat = Some p -> rd !! 0%nat = Some nan) /\
    (forall t p q, adj !! t = Some p -> adj !! S t = Some q ->
                   rd !! S t = Some (q / p - 1)).
Proof.
  intros Hr Hadj Hna.
  exists (<[r := metricas adj df]> h), (Pandas.pct_change adj).
  split; [now apply calcular_metricas_run|].
  split.
  { unfold column. rewrite lookup_insert_eq. unfold metricas. now simplify_map_eq. }
  split; [apply length_pct_change|]. split.
  - intros p Hp. destruct adj as [|p0 ps]; [discriminate|].
    now rewrite pct_change_head.
  - intros t p q Hp Hq. now apply pct_change_lookup_succ.
Qed.

Lemma retorno_diario_is_price_ratio_witness :
  exists h' rd,
    calcular_metricas 1 (store_of (frame_of precos_10)) = (inr 1%positive, h') /\
    column h' 1 "Retorno_Diario" = Some rd /\
    length rd = length precos_10 /\
    (forall p, precos_10 !! 0%nat = Some p -> rd !! 0%nat = Some nan) /\
    (forall t p q, precos_10 !! t = Some p -> precos_10 !! S t = Some q ->
                   rd !! S t = Some (q / p - 1)).
Proof.
  apply (retorno_diario_is_price_ratio _ 1%positive (frame_of precos_10)); reflexivity.
Defined.

Section LongAverageAndVolatility.

Import Pandas.



(** A window that starts at the first daily return holds fewer
    observations than rows, since that return is missing. *)
Lemma roll_std_first_rows W s t :
  (t < W)%nat -> (t < length (nan :: s))%nat ->
  roll_std W (window W (nan :: s) t) = nan.
Proof.
  intros HtW Ht. unfold roll_std, window.
  replace (S t - W)%nat with 0%nat by lia.
  cbn [take drop List.filter]. change (notna nan) with false. cbn iota.
  pose proof (length_filter_le notna (take t s)) as Hle.
  rewrite length_take in Hle.
  replace (W <=? length (List.filter notna (take t s)))%nat with false; [reflexivity|].
  symmetry. apply Nat.leb_gt. lia.
Qed.

Lemma volatilidade_lookup_first_rows adj t x :
  (t < 30)%nat ->
  map (fun x => x * sqrt_252) (rolling_std 30 (pct_change adj)) !! t = Some x ->
  x = nan.
Proof.
  intros Ht Hx.
  change (map ?f ?l) with (f <$> l) in Hx. rewrite list_lookup_fmap in Hx.
  destruct (rolling_std 30 (pct_change adj) !! t) as [y|] eqn:Hy; [|discriminate].
  injection Hx as <-.
  assert (t < length (pct_change adj))%nat as Hlen.
  { apply lookup_lt_Some in Hy. now rewrite length_rolling_std in Hy. }
  unfold rolling_std in Hy. rewrite rolling_lookup in Hy by assumption.
  injection Hy as <-.
  destruct adj as [|p0 ps]; [simpl in Hlen; lia|].
  rewrite pct_change_head in *.
  rewrite roll_std_first_rows by assumption. apply Binary64.mul_nan_l.
Qed.

End LongAverageAndVolatility.



(** X3.  Whatever the prices, the volatility is undefined at each of
    the first 30 rows: the 30-return window needs 31 prices, because the
    first daily return is missing. *)
Theorem volatilidade_undefined_first_30_rows
  (h : heap) (r : loc) (df : DataFrame) (adj : Series) :
  h !! r = Some df -> df !! "Adj Close" = Some adj ->
  exists h' vol,
    calcular_metricas r h = (inr r, h') /\
    column h' r "Volatilidade" = Some vol /\
    length vol = length adj /\
    (forall t x, (t < 30)%nat -> vol !! t = Some x -> x = nan).
Proof.
  intros Hr Hadj.
  exists (<[r := metricas adj df]> h).
  exists (map (fun x => x * sqrt_252) (Pandas.rolling_std 30 (Pandas.pct_change adj))).
  split; [now apply calcular_metricas_run|].
  split.
  { unfold column. rewrite lookup_insert_eq. unfold metricas. now simplify_map_eq. }
  split; [now rewrite length_map, length_rolling_std, length_pct_change|].
  intros t x Ht Hx. now apply (volatilidade_lookup_first_rows adj t x).
Qed.

Lemma volatilidade_undefined_first_30_rows_witness :
  exists h' vol,
    calcular_metricas 1 (store_of (frame_of precos_60)) = (inr 1%positive, h') /\
    column h' 1 "Volatilidade" = Some vol /\
    length vol = length precos_60 /\
    (forall t x, (t < 30)%nat -> vol !! t = Some x -> x = nan).
Proof.
  apply (volatilidade_undefined_first_30_rows _ 1%positive (frame_of precos_60));
    reflexivity.
Defined.

(** A frame without the column "Adj Close": [calcular_metricas] raises
    [KeyError] at its first statement and has written nothing. *)
Theorem calcular_metricas_missing_price_column (h : heap) (r : loc) (df : DataFrame) :
  h !! r = Some df -> df !! "Adj Close" = None ->
  calcular_metricas r h = (inl (KeyError "Adj Close"), h).
Proof.
  intros Hr Hadj. unfold calcular_metricas, bind.
  now rewrite (getitem_none h r df).
Qed.

Lemma calcular_metricas_missing_price_column_witness :
  calcular_metricas 1 (store_of (<["Close" := precos_10]> ∅)) =
    (inl (KeyError "Adj Close"), store_of (<["Close" := precos_10]> ∅)).
Proof.
  apply (calcular_metricas_missing_price_column _ 1%positive (<["Close" := precos_10]> ∅));
    reflexivity.
Defined.

(** ** More of binary64: comparisons with zero *)

Section Signs.

Lemma ltb_true_not_nan x y :
  (x <? y) = true -> is_nan x = false /\ is_nan y = false.
Proof.
  rewrite ltb_spec, !Binary64.is_nan_Prim2SF. unfold SFltb.
  destruct (Prim2SF x), (Prim2SF y); simpl; intros H; try discriminate H; auto.
Qed.

Lemma leb_zero_not_ltb x : (0 <=? x) = true -> (x <? 0) = false.
Proof.
  rewrite leb_spec, ltb_spec. change (Prim2SF 0) with (S754_zero false).
  unfold SFleb, SFltb.
  destruct (Prim2SF x) as [s|s| |s m e]; simpl; try discriminate; try reflexivity;
    destruct s; simpl; intros H; try discriminate H; reflexivity.
Qed.

(** The product of two numbers below zero is a number, and is not
    below zero. *)
Lemma mul_neg_neg x y :
  (x <? 0) = true -> (y <? 0) = true ->
  is_nan (x * y) = false /\ (x * y <? 0) = false.
Proof.
  rewrite !ltb_spec, Binary64.is_nan_Prim2SF, mul_spec.
  change (Prim2SF 0) with (S754_zero false). unfold SFltb.
  destruct (Prim2SF x) as [sx|sx| |sx mx ex]; simpl; try discriminate;
    destruct sx; simpl; try discriminate; intros _;
    destruct (Prim2SF y) as [sy|sy| |sy my ey]; simpl; try discriminate;
    destruct sy; simpl; try discriminate; intros _; try (split; reflexivity).
  unfold SF64mul, SFmul. cbn [xorb].
  pose proof (Binary64.binary_round_aux_signed false
                (Z.pos (mx * my)) (ex + ey) loc_Exact ltac:(lia)) as H.
  destruct (binary_round_aux _ _ _ _ _ _) as [s'|s'| |s' m' e']; simpl in H;
    try contradiction; subst; split; reflexivity.
Qed.

End Signs.

(** ** Classifier and projector: what a result tells, and short frames *)

Section Inversion.

Implicit Types (h : heap) (df : DataFrame) (r : loc) (k : string) (s : Series).

Lemma bind_inr_inv {A B} (m : M A) (f : A -> M B) h b h' :
  bind m f h = (inr b, h') ->
  exists a h1, m h = (inr a, h1) /\ f a h1 = (inr b, h').
Proof.
  unfold bind. destruct (m h) as [[e|a] h1]; [discriminate|]. eauto.
Qed.

Lemma iloc_inr_inv h r k i x h' :
  iloc r k i h = (inr x, h') ->
  h' = h /\ exists df s, h !! r = Some df /\ df !! k = Some s /\ Pandas.iloc_neg i s = inr x.
Proof.
  unfold iloc, bind, getitem.
  destruct (h !! r) as [df|] eqn:Hr; [|discriminate].
  destruct (df !! k) as [s|] eqn:Hk; [|discriminate].
  destruct (Pandas.iloc_neg i s) as [e|y] eqn:E; [discriminate|].
  cbn. intros H.
  pose proof (f_equal snd H) as Hh. cbn in Hh. subst h'.
  pose proof (f_equal (fun v : (exn + float) * heap =>
                         match fst v with inr z => z | inl _ => y end) H) as Hx.
  cbn in Hx. subst x.
  split; [reflexivity|]. exists df, s. auto.
Qed.

Lemma analisar_tendencia_inv h r res h' :
  analisar_tendencia r h = (inr res, h') ->
  h' = h /\
  exists df s50 s200 a b,
    h !! r = Some df /\
    df !! "Media_Movel_50" = Some s50 /\ df !! "Media_Movel_200" = Some s200 /\
    Pandas.iloc_neg 1 s50 = inr a /\ Pandas.iloc_neg 1 s200 = inr b /\
    analisar_tendencia r h =
      (inr (if b <? a then ("Crescimento"%string, seta_cima, (a / b - 1) * 100)
            else ("Queda"%string, seta_baixo, (1 - a / b) * 100)), h).
Proof.
  intros H. pose proof (readonly_analisar_tendencia r h) as Hro.
  rewrite H in Hro. cbn in Hro. subst h'. split; [reflexivity|].
  unfold analisar_tendencia in H.
  apply bind_inr_inv in H as (a & h1 & Ha & H).
  apply iloc_inr_inv in Ha as (-> & df & s50 & Hr & H50 & Ha).
  apply bind_inr_inv in H as (b & h2 & Hb & H).
  apply iloc_inr_inv in Hb as (-> & df' & s200 & Hr' & H200 & Hb).
  rewrite Hr in Hr'. assert (df' = df) as -> by congruence.
  exists df, s50, s200, a, b. repeat (split; [assumption|]).
  now apply analisar_tendencia_run with df s50 s200.
Qed.

Lemma calcular_projecao_crescimento_inv h r out h' :
  calcular_projecao_crescimento r h = (inr out, h') ->
  h' = h /\
  exists df s50 vol a b v,
    h !! r = Some df /\
    df !! "Media_Movel_50" = Some s50 /\ df !! "Volatilidade" = Some vol /\
    Pandas.iloc_neg 1 s50 = inr a /\ Pandas.iloc_neg 5 s50 = inr b /\
    Pandas.iloc_neg 1 vol = inr v /\
    calcular_projecao_crescimento r h =
      (inr (if (a - b) / 5 * (1 - v) <? 0 then PyInt 0
            else PyFloat ((a - b) / 5 * (1 - v) * 100)), h).
Proof.
  intros H. pose proof (readonly_calcular_projecao_crescimento r h) as Hro.
  rewrite H in Hro. cbn in Hro. subst h'. split; [reflexivity|].
  unfold calcular_projecao_crescimento in H.
  apply bind_inr_inv in H as (a & h1 & Ha & H).
  apply iloc_inr_inv in Ha as (-> & df & s50 & Hr & H50 & Ha).
  apply bind_inr_inv in H as (b & h2 & Hb & H).
  apply iloc_inr_inv in Hb as (-> & df' & s50' & Hr' & H50' & Hb).
  assert (df' = df) as -> by congruence.
  assert (s50' = s50) as -> by congruence.
  apply bind_inr_inv in H as (v & h3 & Hv & H).
  apply iloc_inr_inv in Hv as (-> & df' & vol & Hr'' & Hvol & Hv).
  assert (df' = df) as -> by congruence.
  exists df, s50, vol, a, b, v. repeat (split; [assumption|]).
  now apply calcular_projecao_crescimento_run with df s50 vol.
Qed.

End Inversion.

Section ShortHistory.

Import Pandas.

Lemma iloc_neg_lookup (i : nat) (s : Series) x :
  (1 <= i <= length s)%nat -> s !! (length s - i)%nat = Some x -> iloc_neg i s = inr x.
Proof.
  intros [H1 H2] Hx. unfold iloc_neg.
  replace (1 <=? i)%nat with true by (symmetry; now apply Nat.leb_le).
  replace (i <=? length s)%nat with true by (symmetry; now apply Nat.leb_le).
  cbn [andb]. now rewrite Hx.
Qed.

Lemma iloc_neg_rolling (i W : nat) agg (s : Series) :
  (1 <= i <= length s)%nat ->
  iloc_neg i (rolling W agg s) = inr (agg (window W s (length s - i))).
Proof.
  intros Hi. apply iloc_neg_lookup; rewrite length_rolling; [exact Hi|].
  apply rolling_lookup. lia.
Qed.

Lemma iloc_neg_some (i : nat) (s : Series) :
  (1 <= i <= length s)%nat -> exists x, iloc_neg i s = inr x.
Proof.
  intros Hi. destruct (lookup_lt_is_Some_2 s (length s - i)%nat ltac:(lia)) as [x Hx].
  exists x. now apply iloc_neg_lookup.
Qed.

(** The latest 200-period average of fewer than 200 rows, and the
    50-period average four rows before the latest of fewer than 54. *)
Lemma latest_mm200_short adj :
  (1 <= length adj < 200)%nat -> iloc_neg 1 (rolling_mean 200 adj) = inr nan.
Proof.
  intros Hn. unfold rolling_mean. rewrite iloc_neg_rolling by lia.
  rewrite roll_mean_short; [reflexivity|]. rewrite length_window by lia. lia.
Qed.

Lemma earlier_mm50_short adj :
  (5 <= length adj < 54)%nat -> iloc_neg 5 (rolling_mean 50 adj) = inr nan.
Proof.
  intros Hn. unfold rolling_mean. rewrite iloc_neg_rolling by lia.
  rewrite roll_mean_short; [reflexivity|]. rewrite length_window by lia. lia.
Qed.

End ShortHistory.

(** X4.  The classifier answers Growth ("Crescimento") only on defined
    averages: whenever it returns that label, both latest averages are
    numbers, MA50 is above MA200 and the magnitude is
    [(MA50/MA200 - 1) * 100]; in every other case that returns, the
    label is "Queda". *)
Theorem crescimento_only_on_defined_averages
  (h h' : heap) (r : loc) (tendencia seta : string) (percentual : float) :
  analisar_tendencia r h = (inr (tendencia, seta, percentual), h') ->
  exists df s50 s200 a b,
    h !! r = Some df /\
    df !! "Media_Movel_50" = Some s50 /\ df !! "Media_Movel_200" = Some s200 /\
    Pandas.iloc_neg 1 s50 = inr a /\ Pandas.iloc_neg 1 s200 = inr b /\
    tendencia = (if b <? a then "Crescimento"%string else "Queda"%string) /\
    (tendencia = "Crescimento"%string ->
     (b <? a) = true /\ is_nan a = false /\ is_nan b = false /\
     percentual = (a / b - 1) * 100).
Proof.
  intros H.
  destruct (analisar_tendencia_inv h r _ h' H) as (-> & df & s50 & s200 & a & b &
                                                   Hr & H50 & H200 & Ha & Hb & Hrun).
  rewrite Hrun in H.
  exists df, s50, s200, a, b. repeat (split; [assumption|]).
  pose proof (f_equal (fun v : (exn + string * string * float) * heap =>
                         match fst v with
                         | inr (t, _, _) => t
                         | inl _ => ""%string
                         end) H) as Ht.
  pose proof (f_equal (fun v : (exn + string * string * float) * heap =>
                         match fst v with
                         | inr (_, _, p) => p
                         | inl _ => 0
                         end) H) as Hp.
  cbn in Ht, Hp. destruct (b <? a) eqn:Hlt; cbn in Ht, Hp; subst tendencia percentual.
  - split; [reflexivity|]. intros _.
    destruct (ltb_true_not_nan b a Hlt) as [Hnb Hna]. auto.
  - split; [reflexivity|]. intros Habs. discriminate Habs.
Qed.

Lemma crescimento_only_on_defined_averages_witness :
  let h := store_of (frame_medias [105; 110] [99; 100] [0.5; 0.5]) in
  exists df s50 s200 a b,
    h !! 1%positive = Some df /\
    df !! "Media_Movel_50" = Some s50 /\ df !! "Media_Movel_200" = Some s200 /\
    Pandas.iloc_neg 1 s50 = inr a /\ Pandas.iloc_neg 1 s200 = inr b /\
    "Crescimento"%string = (if b <? a then "Crescimento"%string else "Queda"%string) /\
    ("Crescimento"%string = "Crescimento"%string ->
     (b <? a) = true /\ is_nan a = false /\ is_nan b = false /\
     dez_por_cima = (a / b - 1) * 100).
Proof.
  intros h.
  apply (crescimento_only_on_defined_averages h h 1%positive _ seta_cima dez_por_cima).
  reflexivity.
Defined.

(** X5.  With fewer than 200 rows of prices, whatever they are, the
    200-period average is undefined at the latest row, so after
    [calcular_metricas] the classifier returns "Queda" with a NaN
    magnitude. *)
Theorem fewer_than_200_rows_is_queda
  (h : heap) (r : loc) (df : DataFrame) (adj : Series) :
  h !! r = Some df -> df !! "Adj Close" = Some adj ->
  (1 <= length adj < 200)%nat ->
  exists h',
    calcular_metricas r h = (inr r, h') /\
    analisar_tendencia r h' = (inr ("Queda"%string, seta_baixo, nan), h').
Proof.
  intros Hr Hadj Hn. exists (<[r := metricas adj df]> h).
  split; [now apply calcular_metricas_run|].
  destruct (Pandas.iloc_neg 1 (Pandas.rolling_mean 50 adj)) as [e|a] eqn:Ha.
  { destruct (iloc_neg_some 1 (Pandas.rolling_mean 50 adj)) as [x Hx];
      [rewrite length_rolling_mean; lia|congruence]. }
  rewrite (analisar_tendencia_run _ r (metricas adj df)
             (Pandas.rolling_mean 50 adj) (Pandas.rolling_mean 200 adj) a nan);
    [|apply lookup_insert_eq|unfold metricas; now simplify_map_eq
     |unfold metricas; now simplify_map_eq|exact Ha|now apply latest_mm200_short].
  now rewrite Binary64.ltb_nan_l, Binary64.div_nan_r, Binary64.sub_nan_r, Binary64.mul_nan_l.
Qed.

Lemma fewer_than_200_rows_is_queda_witness :
  exists h',
    calcular_metricas 1 (store_of (frame_of precos_60)) = (inr 1%positive, h') /\
    analisar_tendencia 1 h' = (inr ("Queda"%string, seta_baixo, nan), h').
Proof.
  apply (fewer_than_200_rows_is_queda _ 1%positive (frame_of precos_60) precos_60);
    try reflexivity.
  vm_compute. split; lia.
Defined.

(** X6.  With 5 to 53 rows of prices, whatever they are, the 50-period
    average read by [iloc[-5]] is undefined, so after
    [calcular_metricas] the projector returns NaN: a number needs at
    least 54 rows. *)
Theorem fewer_than_54_rows_projects_nan
  (h : heap) (r : loc) (df : DataFrame) (adj : Series) :
  h !! r = Some df -> df !! "Adj Close" = Some adj ->
  (5 <= length adj < 54)%nat ->
  exists h',
    calcular_metricas r h = (inr r, h') /\
    calcular_projecao_crescimento r h' = (inr (PyFloat nan), h').
Proof.
  intros Hr Hadj Hn. exists (<[r := metricas adj df]> h).
  split; [now apply calcular_metricas_run|].
  destruct (iloc_neg_some 1 (Pandas.rolling_mean 50 adj)) as [a Ha];
    [rewrite length_rolling_mean; lia|].
  destruct (iloc_neg_some 1
              (map (fun x => x * sqrt_252)
                 (Pandas.rolling_std 30 (Pandas.pct_change adj)))) as [v Hv];
    [rewrite length_map, length_rolling_std, length_pct_change; lia|].
  rewrite (calcular_projecao_crescimento_run _ r (metricas adj df)
             (Pandas.rolling_mean 50 adj)
             (map (fun x => x * sqrt_252) (Pandas.rolling_std 30 (Pandas.pct_change adj)))
             a nan v);
    [|apply lookup_insert_eq|unfold metricas; now simplify_map_eq
     |unfold metricas; now simplify_map_eq|exact Ha|now apply earlier_mm50_short|exact Hv].
  now rewrite Binary64.sub_nan_r, Binary64.div_nan_l, Binary64.mul_nan_l.
Qed.

Lemma fewer_than_54_rows_projects_nan_witness :
  exists h',
    calcular_metricas 1 (store_of (frame_of precos_10)) = (inr 1%positive, h') /\
    calcular_projecao_crescimento 1 h' = (inr (PyFloat nan), h').
Proof.
  apply (fewer_than_54_rows_projects_nan _ 1%positive (frame_of precos_10) precos_10);
    try reflexivity.
  vm_compute. split; lia.
Defined.

(** X7.  Whatever the frame holds, a projection that is returned is
    never a number below zero: it is the integer 0, or a float that is
    NaN or not below zero. *)
Theorem projecao_never_below_zero (h h' : heap) (r : loc) (out : pynum) :
  calcular_projecao_crescimento r h = (inr out, h') ->
  match out with
  | PyInt z => z = 0%Z
  | PyFloat f => (f <? 0) = false /\ (is_nan f = true \/ (0 <=? f) = true)
  end.
Proof.
  intros H.
  destruct (calcular_projecao_crescimento_inv h r out h' H)
    as (-> & df & s50 & vol & a & b & v & _ & _ & _ & _ & _ & _ & Hrun).
  rewrite Hrun in H.
  pose proof (f_equal (fun w : (exn + pynum) * heap =>
                         match fst w with inr o => o | inl _ => out end) H) as Ho.
  cbn in Ho. subst out.
  destruct ((a - b) / 5 * (1 - v) <? 0) eqn:Hneg; [reflexivity|].
  destruct (is_nan ((a - b) / 5 * (1 - v))) eqn:Hnan.
  - apply Binary64.is_nan_true in Hnan. rewrite Hnan, Binary64.mul_nan_l.
    split; [apply Binary64.ltb_nan_l|now left].
  - pose proof (Binary64.mul_100_nonneg _ Hnan Hneg) as Hge.
    split; [now apply leb_zero_not_ltb|now right].
Qed.

Lemma projecao_never_below_zero_witness :
  match PyFloat nan with
  | PyInt z => z = 0%Z
  | PyFloat f => (f <? 0) = false /\ (is_nan f = true \/ (0 <=? f) = true)
  end.
Proof.
  apply (projecao_never_below_zero
           (store_of (frame_medias [1; 2; 3; 4; 5; 6] [nan] [0; 0; 0; 0; 0; nan]))
           (store_of (frame_medias [1; 2; 3; 4; 5; 6] [nan] [0; 0; 0; 0; 0; nan]))
           1%positive (PyFloat nan)).
  reflexivity.
Defined.

(** X8.  When the momentum term and the damping factor
    [1 - volatility] are both below zero (a falling average under a
    volatility above 1), their product is not below zero, the clamp does
    not apply, and the projection returned is that product times 100,
    which is not below zero. *)
Theorem falling_average_high_volatility_not_clamped
  (h : heap) (r : loc) (df : DataFrame) (s50 vol : Series) (a b v : float) :
  h !! r = Some df ->
  df !! "Media_Movel_50" = Some s50 -> df !! "Volatilidade" = Some vol ->
  Pandas.iloc_neg 1 s50 = inr a -> Pandas.iloc_neg 5 s50 = inr b ->
  Pandas.iloc_neg 1 vol = inr v ->
  ((a - b) / 5 <? 0) = true -> (1 - v <? 0) = true ->
  calcular_projecao_crescimento r h =
    (inr (PyFloat ((a - b) / 5 * (1 - v) * 100)), h) /\
  (0 <=? (a - b) / 5 * (1 - v) * 100) = true.
Proof.
  intros Hr H50 Hvol Ha Hb Hv Hmom Hdamp.
  destruct (mul_neg_neg _ _ Hmom Hdamp) as [Hnan Hneg].
  rewrite (calcular_projecao_crescimento_run h r df s50 vol a b v) by assumption.
  rewrite Hneg. split; [reflexivity|].
  now apply Binary64.mul_100_nonneg.
Qed.

Lemma falling_average_high_volatility_not_clamped_witness :
  let h := store_of (frame_medias [5; 25; 20; 15; 10; 0] [0] [1.5; 1.5]) in
  calcular_projecao_crescimento 1 h =
    (inr (PyFloat ((0 - 25) / 5 * (1 - 1.5) * 100)), h) /\
  (0 <=? (0 - 25) / 5 * (1 - 1.5) * 100) = true.
Proof.
  intros h.
  apply (falling_average_high_volatility_not_clamped h 1%positive
           (frame_medias [5; 25; 20; 15; 10; 0] [0] [1.5; 1.5])
           [5; 25; 20; 15; 10; 0] [1.5; 1.5]);
    reflexivity.
Defined.

Lemma analisar_tendencia_no_rows (h : heap) (r : loc) (df : DataFrame) :
  h !! r = Some df -> df !! "Media_Movel_50" = Some [] ->
  analisar_tendencia r h = (inl IndexError, h).
Proof.
  intros Hr H50. unfold analisar_tendencia.
  now rewrite (bind_iloc_short h r df _ [] 1) by (try assumption; simpl; lia).
Qed.

(** X9.  Frames too short for the positional reads: the projector
    raises [IndexError] on every frame whose 50-period column has fewer
    than five rows, and the classifier raises it on a frame without
    rows.  Neither writes to the store. *)
Theorem short_frames_raise_IndexError
  (h : heap) (r : loc) (df : DataFrame) (s50 : Series) :
  h !! r = Some df -> df !! "Media_Movel_50" = Some s50 ->
  ((length s50 < 5)%nat ->
   calcular_projecao_crescimento r h = (inl IndexError, h)) /\
  (s50 = [] -> analisar_tendencia r h = (inl IndexError, h)).
Proof.
  intros Hr H50. split.
  - intros Hlen. now apply (calcular_projecao_crescimento_short h r df s50).
  - intros ->. now apply (analisar_tendencia_no_rows h r df).
Qed.

Lemma short_frames_raise_IndexError_witness :
  let h := store_of (frame_medias [] [] []) in
  ((length (@nil float) < 5)%nat ->
   calcular_projecao_crescimento 1 h = (inl IndexError, h)) /\
  (@nil float = [] -> analisar_tendencia 1 h = (inl IndexError, h)).
Proof.
  intros h.
  apply (short_frames_raise_IndexError h 1%positive (frame_medias [] [] []) []);
    reflexivity.
Defined.

(** X10.  The classifier, the projector and the report built from them
    only read: whatever they return or raise, the store is the one they
    were given. *)
Theorem readers_leave_store_unchanged (r : loc) (h : heap) :
  snd (analisar_tendencia r h) = h /\
  snd (calcular_projecao_crescimento r h) = h /\
  snd (recomendar_compra_e_projecao r h) = h.
Proof.
  split; [apply readonly_analisar_tendencia|].
  split; [apply readonly_calcular_projecao_crescimento|].
  apply readonly_recomendar_compra_e_projecao.
Qed.

(** ** The page and the batch *)

Section AppSteps.

Implicit Types (h : heap) (df : DataFrame) (r : loc) (k : string) (s : Series)
  (t : list event).

Lemma abind_aret {A B} (a : A) (f : A -> App B) w : abind (aret a) f w = f a w.
Proof. reflexivity. Qed.

Lemma abind_emit {B} (e : event) (f : unit -> App B) h t :
  abind (emit e) f (h, t) = f tt (h, t ++ [e]).
Proof. reflexivity. Qed.

Lemma abind_on_store {A B} (m : M A) (f : A -> App B) h t a h' :
  m h = (inr a, h') -> abind (on_store m) f (h, t) = f a (h', t).
Proof. intros H. unfold abind, on_store. cbn [fst snd]. now rewrite H. Qed.

Lemma abind_on_store_raise {A B} (m : M A) (f : A -> App B) h t e h' :
  m h = (inl e, h') -> abind (on_store m) f (h, t) = (inl e, (h', t)).
Proof. intros H. unfold abind, on_store. cbn [fst snd]. now rewrite H. Qed.

Lemma empty_of_some h r df : h !! r = Some df -> empty_of r h = (inr (df_empty df), h).
Proof. intros Hr. unfold empty_of. now rewrite Hr. Qed.

(** A frame with a price row is not empty. *)
Lemma df_empty_false df k s :
  df !! k = Some s -> (0 < length s)%nat -> df_empty df = false.
Proof.
  intros Hk Hlen. unfold df_empty. apply bool_decide_eq_false. intros Hall.
  specialize (Hall k s Hk). simpl in Hall. lia.
Qed.

Lemma metricas_lookups adj df :
  metricas adj df !! "Retorno_Acumulado" =
    Some (map (fun x => x - 1)
            (Pandas.cumprod (map (fun x => 1 + x) (Pandas.pct_change adj)))) /\
  metricas adj df !! "Media_Movel_50" = Some (Pandas.rolling_mean 50 adj) /\
  metricas adj df !! "Media_Movel_200" = Some (Pandas.rolling_mean 200 adj) /\
  metricas adj df !! "Volatilidade" =
    Some (map (fun x => x * sqrt_252) (Pandas.rolling_std 30 (Pandas.pct_change adj))).
Proof. unfold metricas. repeat split; now simplify_map_eq. Qed.

(** [exibir_graficos] on a frame that has the five columns it plots. *)
Lemma exibir_graficos_run ticker h r df t adj mm50 mm200 ra vol :
  h !! r = Some df ->
  df !! "Adj Close" = Some adj ->
  df !! "Media_Movel_50" = Some mm50 -> df !! "Media_Movel_200" = Some mm200 ->
  df !! "Retorno_Acumulado" = Some ra -> df !! "Volatilidade" = Some vol ->
  exibir_graficos ticker r (h, t) =
    (inr tt,
     (h, t ++ [StSubheader ("Análise de " +:+ ticker);
               StPlotlyChart
                 (Figure [Scatter adj "Preço Ajustado";
                          Scatter mm50 "Média Móvel 50 dias";
                          Scatter mm200 "Média Móvel 200 dias"]
                    ("Preço Ajustado e Médias Móveis - " +:+ ticker)
                    "Data" "Preço Ajustado");
               StPlotlyChart
                 (Figure [Scatter ra "Retorno Acumulado"]
                    ("Retorno Acumulado - " +:+ ticker) "Data" "Retorno Acumulado");
               StPlotlyChart
                 (Figure [Scatter vol "Volatilidade (Anualizada)"]
                    ("Volatilidade (Anualizada) - " +:+ ticker) "Data" "Volatilidade")])).
Proof.
  intros Hr Hadj H50 H200 Hra Hvol. unfold exibir_graficos.
  rewrite abind_emit.
  rewrite (abind_on_store _ _ h _ adj h) by now apply (getitem_some h r df).
  rewrite (abind_on_store _ _ h _ mm50 h) by now apply (getitem_some h r df).
  rewrite (abind_on_store _ _ h _ mm200 h) by now apply (getitem_some h r df).
  rewrite abind_emit.
  rewrite (abind_on_store _ _ h _ ra h) by now apply (getitem_some h r df).
  rewrite abind_emit.
  rewrite (abind_on_store _ _ h _ vol h) by now apply (getitem_some h r df).
  unfold emit. cbn [fst snd]. now rewrite <- !app_assoc.
Qed.

(** The recommendation shown for the latest averages [a] and [b]. *)
Lemma recomendar_tela_run ticker h r df t adjs s50 s200 p a b out :
  h !! r = Some df ->
  df !! "Adj Close" = Some adjs -> Pandas.iloc_neg 1 adjs = inr p ->
  df !! "Media_Movel_50" = Some s50 -> df !! "Media_Movel_200" = Some s200 ->
  Pandas.iloc_neg 1 s50 = inr a -> Pandas.iloc_neg 1 s200 = inr b ->
  calcular_projecao_crescimento r h = (inr out, h) ->
  exists e,
    recomendar_compra_e_projecao_tela ticker r (h, t) =
      (inr tt,
       (h, t ++ [StWrite [Txt ("**Preço mais recente de " +:+ ticker +:+ ":** $");
                          Fmt2f (PyFloat p)];
                 e;
                 StWrite [Txt "**Crescimento projetado para o longo prazo**: ";
                          Fmt2f out; Txt "%"]])) /\
    e = (if b <? a then
           StSuccess [Txt (seta_cima +:+ " **Recomendação:** " +:+ ticker +:+
                           " está em **Crescimento** (");
                      Fmt2f (PyFloat ((a / b - 1) * 100));
                      Txt "% de crescimento). Bom para compra a longo prazo."]
         else
           StError [Txt (seta_baixo +:+ " **Recomendação:** " +:+ ticker +:+
                         " está em **Queda** (");
                    Fmt2f (PyFloat ((1 - a / b) * 100));
                    Txt "% de queda). Melhor evitar no longo prazo."]).
Proof.
  intros Hr Hadj Hp H50 H200 Ha Hb Hproj. eexists. split; [|reflexivity].
  unfold recomendar_compra_e_projecao_tela.
  rewrite (abind_on_store _ _ h _ p h).
  2:{ rewrite (iloc_some h r df _ adjs) by assumption. now rewrite Hp. }
  rewrite abind_emit.
  rewrite (abind_on_store _ _ h _ _ h
             (analisar_tendencia_run h r df s50 s200 a b Hr H50 H200 Ha Hb)).
  destruct (b <? a); cbn [String.eqb Ascii.eqb Bool.eqb];
    rewrite abind_emit;
    rewrite (abind_on_store _ _ h _ out h Hproj);
    unfold emit; cbn [fst snd]; now rewrite <- !app_assoc.
Qed.

End AppSteps.

Section Loop.

Implicit Types (h : heap) (df : DataFrame) (l : loc) (t : list event)
  (dados : gmap string positive) (ticker : string) (rest tickers : list string).

Lemma ticker_step_missing dados ticker rest h t :
  dados !! ticker = None ->
  analisar_tickers dados (ticker :: rest) (h, t) =
    analisar_tickers dados rest
      (h, t ++ [StWarning ("Não foi possível encontrar dados para " +:+ ticker +:+ ".")]).
Proof. intros Hd. cbn [analisar_tickers]. rewrite Hd. now rewrite abind_emit. Qed.

Lemma ticker_step_empty dados ticker rest h t l df :
  dados !! ticker = Some l -> h !! l = Some df -> df_empty df = true ->
  analisar_tickers dados (ticker :: rest) (h, t) =
    analisar_tickers dados rest
      (h, t ++ [StWarning ("Não foi possível encontrar dados para " +:+ ticker +:+ ".")]).
Proof.
  intros Hd Hl He. cbn [analisar_tickers]. rewrite Hd.
  rewrite (abind_on_store _ _ h t _ h (empty_of_some h l df Hl)), He.
  now rewrite abind_emit.
Qed.

Lemma abind_assoc {A B C} (m : App A) (f : A -> App B) (g : B -> App C) w :
  abind (abind m f) g w = abind m (fun x => abind (f x) g) w.
Proof. unfold abind. destruct (m w) as [[e|a] w']; reflexivity. Qed.

Lemma abind_value {A B} (m : App A) (f : A -> App B) w a w' :
  m w = (inr a, w') -> abind m f w = f a w'.
Proof. intros H. unfold abind. now rewrite H. Qed.

(** The statements of one turn of the loop up to the projection, on a
    frame with at least one price row: six calls, which depend on the
    symbol and on the prices only. *)
Lemma ticker_step_until_projection ticker adj :
  (1 <= length adj)%nat ->
  exists t6,
    length t6 = 6%nat /\
    forall dados h t l df rest,
      dados !! ticker = Some l -> h !! l = Some df -> df !! "Adj Close" = Some adj ->
      analisar_tickers dados (ticker :: rest) (h, t) =
        abind (on_store (calcular_projecao_crescimento l))
          (fun crescimento_projetado =>
             abind
               (emit (StWrite [Txt "**Crescimento projetado para o longo prazo**: ";
                               Fmt2f crescimento_projetado; Txt "%"]))
               (fun _ => analisar_tickers dados rest))
          (<[l := metricas adj df]> h, t ++ t6).
Proof.
  intros Hn.
  destruct (iloc_neg_some 1 adj ltac:(lia)) as [p Hp].
  destruct (iloc_neg_some 1 (Pandas.rolling_mean 50 adj)) as [a Ha];
    [rewrite length_rolling_mean; lia|].
  destruct (iloc_neg_some 1 (Pandas.rolling_mean 200 adj)) as [b Hb];
    [rewrite length_rolling_mean; lia|].
  destruct (b <? a) eqn:Hlt;
    (eexists; split; cycle 1;
     [ intros dados h t l df rest Hd Hl Hadj;
       destruct (metricas_lookups adj df) as (Hra & H50 & H200 & Hvol);
       pose proof (metricas_adj_close adj df Hadj) as Hadj1;
       pose proof (lookup_insert_eq h l (metricas adj df)) as Hl1;
       cbn [analisar_tickers]; rewrite Hd;
       rewrite (abind_on_store _ _ h t _ h (empty_of_some h l df Hl));
       rewrite (df_empty_false df "Adj Close" adj Hadj) by lia;
       rewrite (abind_on_store _ _ h t l _ (calcular_metricas_run h l df adj Hl Hadj));
       rewrite (abind_value _ _ _ _ _
                  (exibir_graficos_run ticker _ l (metricas adj df) t _ _ _ _ _
                     Hl1 Hadj1 H50 H200 Hra Hvol));
       unfold recomendar_compra_e_projecao_tela;
       rewrite abind_assoc;
       rewrite (abind_on_store _ _ _ _ p _
                  (eq_trans (iloc_some _ l (metricas adj df) _ adj 1 Hl1 Hadj1)
                     (f_equal (fun v => (match v with inr x => inr x | inl e => inl e end,
                                         <[l := metricas adj df]> h)) Hp)));
       rewrite abind_assoc, abind_emit, abind_assoc;
       rewrite (abind_on_store _ _ _ _ _ _
                  (analisar_tendencia_run _ l (metricas adj df) _ _ a b
                     Hl1 H50 H200 Ha Hb));
       rewrite Hlt; cbn [String.eqb Ascii.eqb Bool.eqb];
       rewrite abind_assoc, abind_emit, abind_assoc;
       rewrite <- !app_assoc; cbn [app]; reflexivity
     | reflexivity ]).
Qed.

End Loop.

(** X11.  A symbol with no entry in the downloads, or whose frame is
    empty, costs the loop of [main] exactly one warning: the store is
    left as it is and the loop goes on with the next symbol. *)
Theorem no_data_is_one_warning
  (dados : gmap string positive) (ticker : string) (rest : list string)
  (h : heap) (t : list event) :
  dados !! ticker = None \/
  (exists l df, dados !! ticker = Some l /\ h !! l = Some df /\ df_empty df = true) ->
  analisar_tickers dados (ticker :: rest) (h, t) =
    analisar_tickers dados rest
      (h, t ++ [StWarning ("Não foi possível encontrar dados para " +:+ ticker +:+ ".")]).
Proof.
  intros [Hnone|(l & df & Hd & Hl & He)].
  - now apply ticker_step_missing.
  - now apply (ticker_step_empty dados ticker rest h t l df).
Qed.

Lemma no_data_is_one_warning_witness :
  analisar_tickers (<["NIO" := 1%positive]> ∅) ["NIO"; "ZZ"]
    (store_of (frame_of []), []) =
  analisar_tickers (<["NIO" := 1%positive]> ∅) ["ZZ"]
    (store_of (frame_of []),
     [] ++ [StWarning ("Não foi possível encontrar dados para " +:+ "NIO" +:+ ".")]).
Proof.
  apply no_data_is_one_warning.
  right. exists 1%positive, (frame_of []). repeat split.
Defined.

(** X12.  A frame with one to four price rows stops the whole loop: its
    charts, its latest price and its recommendation are shown (six
    calls), then the projector's [iloc[-5]] raises [IndexError], which
    nothing catches, so no later symbol is visited. *)
Theorem short_history_aborts_batch
  (dados : gmap string positive) (ticker : string)
  (h : heap) (t : list event) (l : loc) (df : DataFrame) (adj : Series) :
  dados !! ticker = Some l -> h !! l = Some df ->
  df !! "Adj Close" = Some adj -> (1 <= length adj < 5)%nat ->
  exists t6,
    length t6 = 6%nat /\
    forall rest,
      analisar_tickers dados (ticker :: rest) (h, t) =
        (inl IndexError, (<[l := metricas adj df]> h, t ++ t6)).
Proof.
  intros Hd Hl Hadj Hn.
  destruct (ticker_step_until_projection ticker adj ltac:(lia)) as (t6 & Hlen & Hrun).
  exists t6. split; [exact Hlen|]. intros rest.
  rewrite (Hrun dados h t l df rest Hd Hl Hadj).
  apply abind_on_store_raise.
  destruct (metricas_lookups adj df) as (_ & H50 & _).
  apply (calcular_projecao_crescimento_short _ l (metricas adj df)
           (Pandas.rolling_mean 50 adj));
    [apply lookup_insert_eq|exact H50|rewrite length_rolling_mean; lia].
Qed.

Lemma short_history_aborts_batch_witness :
  exists t6,
    length t6 = 6%nat /\
    forall rest,
      analisar_tickers (<["XX" := 1%positive]> ∅) ("XX"%string :: rest)
        (store_of (frame_of [1; 2; 3]), []) =
        (inl IndexError,
         (<[1%positive := metricas [1; 2; 3] (frame_of [1; 2; 3])]>
            (store_of (frame_of [1; 2; 3])), [] ++ t6)).
Proof.
  apply (short_history_aborts_batch _ "XX" _ [] 1%positive (frame_of [1; 2; 3]) [1; 2; 3]);
    try reflexivity.
  vm_compute. split; lia.
Defined.

(** X13.  A frame that has rows but no column "Adj Close" stops the
    loop at once: [calcular_metricas] raises [KeyError] before anything
    is shown for that symbol or written to its frame. *)
Theorem missing_price_column_aborts_batch
  (dados : gmap string positive) (ticker : string) (rest : list string)
  (h : heap) (t : list event) (l : loc) (df : DataFrame) (k : string) (s : Series) :
  dados !! ticker = Some l -> h !! l = Some df ->
  df !! "Adj Close" = None -> df !! k = Some s -> (0 < length s)%nat ->
  analisar_tickers dados (ticker :: rest) (h, t) = (inl (KeyError "Adj Close"), (h, t)).
Proof.
  intros Hd Hl Hadj Hk Hlen. cbn [analisar_tickers]. rewrite Hd.
  rewrite (abind_on_store _ _ h t _ h (empty_of_some h l df Hl)).
  rewrite (df_empty_false df k s Hk Hlen).
  apply abind_on_store_raise. unfold calcular_metricas, bind.
  now rewrite (getitem_none h l df).
Qed.

Lemma missing_price_column_aborts_batch_witness :
  analisar_tickers (<["XX" := 1%positive]> ∅) ["XX"; "AAPL"]
    (store_of (<["Close" := precos_10]> ∅), []) =
  (inl (KeyError "Adj Close"), (store_of (<["Close" := precos_10]> ∅), [])).
Proof.
  apply (missing_price_column_aborts_batch _ "XX" _ _ [] 1%positive
           (<["Close" := precos_10]> ∅) "Close" precos_10);
    try reflexivity.
  vm_compute. lia.
Defined.

Section Batch.

Implicit Types (h : heap) (df : DataFrame) (l : loc) (t : list event)
  (dados : gmap string positive) (ticker : string) (rest tickers : list string).


End Batch.






(** ** Downloading *)

Section Download.

Implicit Types (h : heap) (df : DataFrame) (l : loc) (t : list event)
  (dados : gmap string positive) (ticker k : string) (tickers : list string)
  (yf : nat -> string -> yf_outcome).

Lemma alloc_fresh h : h !! fresh (dom h) = None.
Proof. apply not_elem_of_dom. apply is_fresh. Qed.

(** One turn of the download loop. *)
Lemma pegar_dados_from_cons_ok yf i ticker tickers dados h t df :
  yf i ticker = inr df ->
  pegar_dados_from yf i (ticker :: tickers) dados (h, t) =
    pegar_dados_from yf (S i) tickers (<[ticker := fresh (dom h)]> dados)
      (<[fresh (dom h) := df]> h,
       t ++ (if df_empty df
             then [StWarning ("Nenhum dado encontrado para " +:+ ticker +:+
                              " no Yahoo Finance.")]
             else [])).
Proof.
  intros Hyf. cbn [pegar_dados_from]. rewrite Hyf.
  unfold abind at 1. unfold alloc. cbn [fst snd].
  rewrite (abind_on_store _ _ _ t (df_empty df) (<[fresh (dom h) := df]> h));
    [|apply empty_of_some, lookup_insert_eq].
  destruct (df_empty df).
  - now rewrite abind_emit.
  - rewrite abind_aret. now rewrite app_nil_r.
Qed.

Lemma pegar_dados_from_cons_raise yf i ticker tickers dados h t e :
  yf i ticker = inl e ->
  pegar_dados_from yf i (ticker :: tickers) dados (h, t) =
    pegar_dados_from yf (S i) tickers dados
      (h, t ++ [StError [Txt ("Erro ao baixar dados para " +:+ ticker +:+
                              " no Yahoo Finance: " +:+ e)]]).
Proof. intros Hyf. cbn [pegar_dados_from]. rewrite Hyf. now rewrite abind_emit. Qed.

Lemma pegar_dados_from_spec yf tickers :
  forall i dados h t,
    dados_ok dados h ->
    exists dados' h' t',
      pegar_dados_from yf i tickers dados (h, t) = (inr dados', (h', t ++ t')) /\
      h ⊆ h' /\
      dados_ok dados' h' /\
      (forall k l, dados' !! k = Some l ->
         dados !! k = Some l \/
         (h !! l = None /\
          exists j df, tickers !! j = Some k /\ yf (i + j)%nat k = inr df /\
                       h' !! l = Some df)) /\
      (forall k j df, tickers !! j = Some k -> yf (i + j)%nat k = inr df ->
                      is_Some (dados' !! k)) /\
      (forall k, is_Some (dados !! k) -> is_Some (dados' !! k)).
Proof.
  induction tickers as [|ticker tickers IH]; intros i dados h t Hok.
  - exists dados, h, []. cbn [pegar_dados_from]. unfold aret. rewrite app_nil_r.
    repeat split; try apply Hok; auto.
    intros k j df Hj. discriminate Hj.
  - destruct (yf i ticker) as [e|df] eqn:Hyf.
    + rewrite (pegar_dados_from_cons_raise yf i ticker tickers dados h t e Hyf).
      destruct (IH (S i) dados h (t ++ [StError [Txt ("Erro ao baixar dados para "
                     +:+ ticker +:+ " no Yahoo Finance: " +:+ e)]]) Hok)
        as (dados' & h' & t' & Hrun & Hsub & Hok' & Hnew & Hall & Hkeep).
      exists dados', h', (StError [Txt ("Erro ao baixar dados para "
                     +:+ ticker +:+ " no Yahoo Finance: " +:+ e)] :: t').
      rewrite Hrun. split; [now rewrite <- app_assoc|].
      split; [exact Hsub|]. split; [exact Hok'|]. split; [|split; [|exact Hkeep]].
      * intros k l Hk. destruct (Hnew k l Hk) as [Hold|(Hfresh & j & df & Hj & Hy & Hl)];
          [now left|right].
        split; [exact Hfresh|]. exists (S j), df.
        split; [exact Hj|]. split; [|exact Hl].
        now replace (i + S j)%nat with (S i + j)%nat by lia.
      * intros k [|j] df Hj Hy.
        -- cbn in Hj. injection Hj as <-. rewrite Nat.add_0_r in Hy. congruence.
        -- apply (Hall k j df Hj). now replace (S i + j)%nat with (i + S j)%nat by lia.
    + rewrite (pegar_dados_from_cons_ok yf i ticker tickers dados h t df Hyf).
      set (l0 := fresh (dom h)).
      assert (h !! l0 = None) as Hl0 by apply alloc_fresh.
      set (t1 := t ++ _).
      assert (dados_ok (<[ticker := l0]> dados) (<[l0 := df]> h)) as Hok1.
      { destruct Hok as [Hlive Hinj]. split.
        - intros k l Hk. destruct (decide (k = ticker)) as [->|Hne].
          + rewrite lookup_insert_eq in Hk. injection Hk as <-.
            rewrite lookup_insert_eq. eauto.
          + rewrite lookup_insert_ne in Hk by congruence.
            destruct (Hlive k l Hk) as [d Hd].
            rewrite lookup_insert_ne; [eauto|]. intros <-. congruence.
        - intros k1 k2 l Hk1 Hk2.
          destruct (decide (k1 = ticker)) as [->|Hne1];
            destruct (decide (k2 = ticker)) as [->|Hne2]; [reflexivity| | |].
          + rewrite lookup_insert_eq in Hk1. injection Hk1 as <-.
            rewrite lookup_insert_ne in Hk2 by congruence.
            destruct (Hlive k2 l0 Hk2) as [d Hd]. congruence.
          + rewrite lookup_insert_eq in Hk2. injection Hk2 as <-.
            rewrite lookup_insert_ne in Hk1 by congruence.
            destruct (Hlive k1 l0 Hk1) as [d Hd]. congruence.
          + rewrite lookup_insert_ne in Hk1, Hk2 by congruence.
            now apply (Hinj k1 k2 l). }
      destruct (IH (S i) (<[ticker := l0]> dados) (<[l0 := df]> h) t1 Hok1)
        as (dados' & h' & t' & Hrun & Hsub & Hok' & Hnew & Hall & Hkeep).
      assert (h ⊆ h') as Hsub0.
      { transitivity (<[l0 := df]> h); [now apply insert_subseteq|exact Hsub]. }
      exists dados', h'.
      exists ((if df_empty df
               then [StWarning ("Nenhum dado encontrado para " +:+ ticker +:+
                                " no Yahoo Finance.")]
               else []) ++ t').
      rewrite Hrun. subst t1. split; [now rewrite <- app_assoc|].
      split; [exact Hsub0|]. split; [exact Hok'|]. split; [|split].
      * intros k l Hk.
        destruct (Hnew k l Hk) as [Hold|(Hfresh & j & d & Hj & Hy & Hl)].
        -- destruct (decide (k = ticker)) as [->|Hne].
           ++ rewrite lookup_insert_eq in Hold. injection Hold as <-.
              right. split; [exact Hl0|]. exists 0%nat, df.
              split; [reflexivity|]. split; [now rewrite Nat.add_0_r|].
              apply (lookup_weaken _ _ _ _ (lookup_insert_eq h l0 df) Hsub).
           ++ rewrite lookup_insert_ne in Hold by congruence. now left.
        -- right. split.
           ++ destruct (decide (l = l0)) as [->|Hne]; [exact Hl0|].
              now rewrite lookup_insert_ne in Hfresh by congruence.
           ++ exists (S j), d. split; [exact Hj|]. split; [|exact Hl].
              now replace (i + S j)%nat with (S i + j)%nat by lia.
      * intros k [|j] d Hj Hy.
        -- cbn in Hj. injection Hj as <-. apply Hkeep.
           rewrite lookup_insert_eq. eauto.
        -- apply (Hall k j d Hj). now replace (S i + j)%nat with (i + S j)%nat by lia.
      * intros k Hk. apply Hkeep.
        destruct (decide (k = ticker)) as [->|Hne];
          [rewrite lookup_insert_eq; eauto|now rewrite lookup_insert_ne by congruence].
Qed.

End Download.

(** X16.  [pegar_dados_yahoo] never raises, whatever the downloads do:
    an exception of a download becomes one [st.error] call and the loop
    goes on.  It only adds objects to the store and calls to the page:
    every frame that was live before is unchanged. *)
Theorem pegar_dados_yahoo_never_raises
  (yf : nat -> string -> yf_outcome) (tickers : list string)
  (h : heap) (t : list event) :
  exists dados h' t',
    pegar_dados_yahoo yf tickers (h, t) = (inr dados, (h', t ++ t')) /\
    (forall l df, h !! l = Some df -> h' !! l = Some df).
Proof.
  destruct (pegar_dados_from_spec yf tickers 0 ∅ h t) as
    (dados & h' & t' & Hrun & Hsub & _).
  { split; intros *; rewrite lookup_empty; discriminate. }
  exists dados, h', t'. split; [exact Hrun|].
  intros l df Hl. now apply (lookup_weaken h h' l df).
Qed.

(** X17.  The dictionary [pegar_dados_yahoo] returns has an entry
    exactly for the symbols of which some download returned a frame.
    Each entry refers to a new object, which holds a frame downloaded
    for that symbol, and no two symbols share an object. *)
Theorem pegar_dados_yahoo_entries
  (yf : nat -> string -> yf_outcome) (tickers : list string)
  (h h' : heap) (t t' : list event) (dados : gmap string positive) :
  pegar_dados_yahoo yf tickers (h, t) = (inr dados, (h', t')) ->
  (forall k l, dados !! k = Some l ->
     h !! l = None /\
     exists j df, tickers !! j = Some k /\ yf j k = inr df /\ h' !! l = Some df) /\
  (forall k j df, tickers !! j = Some k -> yf j k = inr df -> is_Some (dados !! k)) /\
  (forall k1 k2 l, dados !! k1 = Some l -> dados !! k2 = Some l -> k1 = k2).
Proof.
  intros H.
  destruct (pegar_dados_from_spec yf tickers 0 ∅ h t) as
    (dados0 & h0 & t0 & Hrun & _ & [_ Hinj] & Hnew & Hall & _).
  { split; intros *; rewrite lookup_empty; discriminate. }
  unfold pegar_dados_yahoo in H. rewrite Hrun in H.
  assert (dados0 = dados /\ h0 = h') as [-> ->].
  { pose proof (f_equal (fun v : (exn + gmap string positive) * (heap * list event) =>
                           match fst v with inr d => d | inl _ => dados0 end) H) as H1.
    pose proof (f_equal (fun v : (exn + gmap string positive) * (heap * list event) =>
                           fst (snd v)) H) as H2.
    cbn in H1, H2. auto. }
  split; [|split; [exact Hall|exact Hinj]].
  intros k l Hk. destruct (Hnew k l Hk) as [Hold|Hfresh].
  - rewrite lookup_empty in Hold. discriminate Hold.
  - exact Hfresh.
Qed.

Lemma pegar_dados_yahoo_entries_witness :
  let r := pegar_dados_yahoo yf_exemplo ["AAPL"; "NIO"; "ZZ"] (∅, []) in
  let dados := match fst r with inr d => d | inl _ => ∅ end in
  (forall k l, dados !! k = Some l ->
     (∅ : heap) !! l = None /\
     exists j df, ["AAPL"; "NIO"; "ZZ"]%string !! j = Some k /\ yf_exemplo j k = inr df /\
                  fst (snd r) !! l = Some df) /\
  (forall k j df, ["AAPL"; "NIO"; "ZZ"]%string !! j = Some k -> yf_exemplo j k = inr df ->
                  is_Some (dados !! k)) /\
  (forall k1 k2 l, dados !! k1 = Some l -> dados !! k2 = Some l -> k1 = k2).
Proof.
  intros r dados.
  apply (pegar_dados_yahoo_entries yf_exemplo ["AAPL"; "NIO"; "ZZ"]%string
           ∅ (fst (snd r)) [] (snd (snd r)) dados).
  vm_compute. reflexivity.
Defined.



(** X19.  The recommendation follows the crossover and nothing else:
    [recomendar_compra_e_projecao] shows the buy message ([st.success])
    exactly when the latest MA50 is above the latest MA200; in every
    other case, undefined averages included, it shows the avoid message
    ([st.error]).  Around it come the latest price and the projection. *)
Theorem recommendation_follows_crossover
  (ticker : string) (h : heap) (r : loc) (df : DataFrame) (t : list event)
  (adjs s50 s200 : Series) (p a b : float) (out : pynum) :
  h !! r = Some df ->
  df !! "Adj Close" = Some adjs -> Pandas.iloc_neg 1 adjs = inr p ->
  df !! "Media_Movel_50" = Some s50 -> df !! "Media_Movel_200" = Some s200 ->
  Pandas.iloc_neg 1 s50 = inr a -> Pandas.iloc_neg 1 s200 = inr b ->
  calcular_projecao_crescimento r h = (inr out, h) ->
  exists e,
    recomendar_compra_e_projecao_tela ticker r (h, t) =
      (inr tt,
       (h, t ++ [StWrite [Txt ("**Preço mais recente de " +:+ ticker +:+ ":** $");
                          Fmt2f (PyFloat p)];
                 e;
                 StWrite [Txt "**Crescimento projetado para o longo prazo**: ";
                          Fmt2f out; Txt "%"]])) /\
    is_success e = (b <? a) /\
    is_error e = negb (b <? a) /\
    (is_nan a = true \/ is_nan b = true -> is_error e = true).
Proof.
  intros Hr Hadj Hp H50 H200 Ha Hb Hproj.
  destruct (recomendar_tela_run ticker h r df t adjs s50 s200 p a b out
              Hr Hadj Hp H50 H200 Ha Hb Hproj) as (e & Hrun & He).
  exists e. split; [exact Hrun|].
  assert (is_success e = (b <? a) /\ is_error e = negb (b <? a)) as [Hs Herr].
  { rewrite He. destruct (b <? a); split; reflexivity. }
  split; [exact Hs|]. split; [exact Herr|].
  intros Hnan. rewrite Herr.
  destruct Hnan as [Hn|Hn]; apply Binary64.is_nan_true in Hn; subst.
  - now rewrite Binary64.ltb_nan_r.
  - now rewrite Binary64.ltb_nan_l.
Qed.

Lemma recommendation_follows_crossover_witness :
  let df := <["Adj Close" := [1; 2; 3; 4; 5; 6]]>
              (frame_medias [1; 2; 3; 4; 5; 110] [100] [0.5]) in
  exists e,
    recomendar_compra_e_projecao_tela "AAPL" 1 (store_of df, []) =
      (inr tt,
       (store_of df,
        [] ++ [StWrite [Txt ("**Preço mais recente de " +:+ "AAPL" +:+ ":** $");
                        Fmt2f (PyFloat 6)];
               e;
               StWrite [Txt "**Crescimento projetado para o longo prazo**: ";
                        Fmt2f (PyFloat ((110 - 2) / 5 * (1 - 0.5) * 100)); Txt "%"]])) /\
    is_success e = (100 <? 110) /\
    is_error e = negb (100 <? 110) /\
    (is_nan 110 = true \/ is_nan 100 = true -> is_error e = true).
Proof.
  intros df.
  apply (recommendation_follows_crossover "AAPL" (store_of df) 1%positive df []
           [1; 2; 3; 4; 5; 6] [1; 2; 3; 4; 5; 110] [100]);
    reflexivity.
Defined.

(** ** The whole page *)

Section Main.

Implicit Types (h : heap) (t : list event) (dados : gmap string positive)
  (tickers : list string) (yf : nat -> string -> yf_outcome).

Lemma pegar_dados_from_all_raise yf tickers :
  (forall j k, exists e, yf j k = inl e) ->
  forall i dados h t,
    exists erros,
      length erros = length tickers /\ forallb is_error erros = true /\
      pegar_dados_from yf i tickers dados (h, t) = (inr dados, (h, t ++ erros)).
Proof.
  intros Hdown. induction tickers as [|ticker tickers IH]; intros i dados h t.
  - exists []. repeat split. cbn. unfold aret. now rewrite app_nil_r.
  - destruct (Hdown i ticker) as [e He].
    rewrite (pegar_dados_from_cons_raise yf i ticker tickers dados h t e He).
    destruct (IH (S i) dados h (t ++ [StError [Txt ("Erro ao baixar dados para "
                  +:+ ticker +:+ " no Yahoo Finance: " +:+ e)]]))
      as (erros & Hlen & Hall & Hrun).
    exists (StError [Txt ("Erro ao baixar dados para "
                  +:+ ticker +:+ " no Yahoo Finance: " +:+ e)] :: erros).
    split; [cbn; now rewrite Hlen|]. split; [exact Hall|].
    rewrite Hrun. now rewrite <- app_assoc.
Qed.

Lemma analisar_tickers_no_entries tickers h t :
  exists avisos,
    length avisos = length tickers /\ forallb is_warning avisos = true /\
    analisar_tickers ∅ tickers (h, t) = (inr tt, (h, t ++ avisos)).
Proof.
  revert t. induction tickers as [|ticker tickers IH]; intros t.
  - exists []. repeat split. cbn. unfold aret. now rewrite app_nil_r.
  - rewrite (ticker_step_missing ∅ ticker tickers h t (lookup_empty _)).
    destruct (IH (t ++ [StWarning ("Não foi possível encontrar dados para "
                                   +:+ ticker +:+ ".")])) as (avisos & Hlen & Hall & Hrun).
    exists (StWarning ("Não foi possível encontrar dados para " +:+ ticker +:+ ".")
              :: avisos).
    split; [cbn; now rewrite Hlen|]. split; [exact Hall|].
    rewrite Hrun. now rewrite <- app_assoc.
Qed.

Lemma main_run upper yf selecionados ticker_personalizado h t :
  main upper yf selecionados ticker_personalizado true (h, t) =
    (let tickers_acoes :=
       if String.eqb ticker_personalizado "" then selecionados
       else selecionados ++ [upper ticker_personalizado] in
     abind (pegar_dados_yahoo yf tickers_acoes)
       (fun dados_yahoo => analisar_tickers dados_yahoo tickers_acoes)
       (h, t ++ [StSetPageConfig;
                 StTitle "Análise de Investimentos com Projeção de Crescimento";
                 StMarkdown; StTitle "Análise das Ações Selecionadas"])).
Proof.
  unfold main. rewrite !abind_emit. cbv beta zeta iota.
  now rewrite <- !app_assoc.
Qed.

End Main.

(** X20.  With the provider down (every download raises) a press of the
    button still ends without an exception and without touching the
    store: after its four fixed calls the page gets one [st.error] per
    symbol from the download and then one [st.warning] per symbol from
    the loop.  The symbols are the ones selected, followed by the typed
    one in upper case when something was typed. *)
Theorem main_survives_provider_outage
  (upper : string -> string) (yf : nat -> string -> yf_outcome)
  (selecionados : list string) (ticker_personalizado : string)
  (h : heap) (t : list event) :
  (forall j k, exists e, yf j k = inl e) ->
  let tickers_acoes :=
    if String.eqb ticker_personalizado "" then selecionados
    else selecionados ++ [upper ticker_personalizado] in
  exists erros avisos,
    length erros = length tickers_acoes /\ forallb is_error erros = true /\
    length avisos = length tickers_acoes /\ forallb is_warning avisos = true /\
    main upper yf selecionados ticker_personalizado true (h, t) =
      (inr tt,
       (h, t ++ [StSetPageConfig;
                 StTitle "Análise de Investimentos com Projeção de Crescimento";
                 StMarkdown; StTitle "Análise das Ações Selecionadas"]
             ++ erros ++ avisos)).
Proof.
  intros Hdown tickers_acoes.
  rewrite main_run. cbv zeta. fold tickers_acoes.
  set (t0 := t ++ _).
  destruct (pegar_dados_from_all_raise yf tickers_acoes Hdown 0 ∅ h t0)
    as (erros & Hlen & Hall & Hrun).
  destruct (analisar_tickers_no_entries tickers_acoes h (t0 ++ erros))
    as (avisos & Hlen' & Hall' & Hrun').
  exists erros, avisos. repeat (split; [assumption|]).
  unfold pegar_dados_yahoo. rewrite (abind_value _ _ _ _ _ Hrun), Hrun'.
  subst t0. now rewrite <- !app_assoc.
Qed.

Lemma main_survives_provider_outage_witness :
  let tickers_acoes :=
    if String.eqb "nio" "" then tickers_lista
    else tickers_lista ++ [(fun _ => "NIO"%string) "nio"%string] in
  exists erros avisos,
    length erros = length tickers_acoes /\ forallb is_error erros = true /\
    length avisos = length tickers_acoes /\ forallb is_warning avisos = true /\
    main (fun _ => "NIO"%string) yf_fora_do_ar tickers_lista "nio" true (∅, []) =
      (inr tt,
       (∅, [] ++ [StSetPageConfig;
                 StTitle "Análise de Investimentos com Projeção de Crescimento";
                 StMarkdown; StTitle "Análise das Ações Selecionadas"]
             ++ erros ++ avisos)).
Proof.
  apply (main_survives_provider_outage (fun _ => "NIO"%string) yf_fora_do_ar
           tickers_lista "nio" ∅ []).
  intros j k. eexists. reflexivity.
Defined.


